(** * Tensor operator overloads of [bindings/python/cntk/tensor.py]

    A shallow embedding of the operator-overload layer: the graph-building
    [TensorOpsMixin], the materialization helper [ArrayMixin], the
    direct-mode [NDArrayViewOpsMixin] and the two installers that attach
    the overloads to a class. *)

From Stdlib Require Import ZArith QArith Lia.
From stdpp Require Import base option list strings gmap.

Set Warnings "-register-all".
Local Open Scope string_scope.
Local Open Scope list_scope.
Local Open Scope Z_scope.

(** ** Python values and exceptions *)

Module Py.

(** The exceptions that the layer raises itself or that the Python
    operations it uses raise; [RuntimeFailure] stands for an error
    reported by the native runtime. *)
Inductive exn :=
| ValueError
| IndexError
| TypeError
| KeyError
| UnboundLocalError
| RuntimeFailure (what : string).

(** What can be written between the brackets of [x[...]].  The fields of
    a slice are [None] or an int. *)
Inductive pyobj :=
| PInt (z : Z)
| PEllipsis
| PSlice (start stop step : option Z)
| PTuple (items : list pyobj)
| PList (items : list pyobj)
| POther (type_name : string).

(** [isinstance(o, int)] *)
Definition as_int (o : pyobj) : option Z :=
  match o with PInt z => Some z | _ => None end.

(** [x or 0] for [x] being [None] or an int *)
Definition or_0 (x : option Z) : Z :=
  match x with
  | Some z => if Z.eqb z 0 then 0 else z
  | None => 0
  end.

(** [if not isinstance(key, tuple): key = (key,)] *)
Definition as_tuple (key : pyobj) : list pyobj :=
  match key with
  | PTuple items => items
  | _ => [key]
  end.

(** [enumerate(l)] *)
Definition enumerate {A} (l : list A) : list (nat * A) :=
  zip (seq 0 (length l)) l.

(** Results of code that may raise. *)
Definition result (A : Type) : Type := exn + A.

Definition bind {A B} (m : result A) (k : A -> result B) : result B :=
  match m with
  | inl e => inl e
  | inr a => k a
  end.

(** A [for] loop with an accumulator, left to right, stopping at the
    first exception. *)
Fixpoint for_each {A St} (body : St -> A -> result St) (l : list A)
    (st : St) : result St :=
  match l with
  | [] => inr st
  | x :: l' => bind (body st x) (for_each body l')
  end.

(** An attribute of a class: a function of the named definition, or
    any other object, of which only the truth value matters. *)
Inductive attr :=
| Function (definition : string)
| Object (truth : bool).

(** [bool(getattr(klass, name, None))] *)
Definition truthy (a : option attr) : bool :=
  match a with
  | Some (Function _) => true
  | Some (Object b) => b
  | None => false
  end.

End Py.

Import Py.

Declare Scope py_scope.
Delimit Scope py_scope with py.
Notation "x <- m ;; k" := (Py.bind m (fun x => k))
  (at level 100, m at next level, right associativity) : py_scope.

(** ** Graph-building overloads *)

Module TensorOpsMixin.

(** Modelled from the spec: [cntk.ops] is not part of the sources; the
    nodes that [ops.slice] and [ops.splice] add to the graph are recorded
    symbolically, with the arguments they were called with. *)
Inductive node :=
| Var (name : string)
| ops_slice (x : node) (axis begin_index end_index : Z)
| ops_splice (inputs : list node) (axis : Z).

(** The inner loop of the multi-select branch:
    [for idx in s: ... slice_accum.append(ops.slice(r, axis, idx, idx+1))] *)
Definition multi_select_step (r : node) (axis : Z)
    (slice_accum : list node) (idx : pyobj) : result (list node) :=
  match as_int idx with
  | None => inl IndexError
  | Some i => inr (slice_accum ++ [ops_slice r axis i (i + 1)])
  end.

(** [s.step is not None and s.step != 1] *)
Definition bad_step (step : option Z) : bool :=
  match step with
  | Some st => negb (Z.eqb st 1)
  | None => false
  end.

(** The slice branch, for [s = slice(start, stop, step)]. *)
Definition slice_branch (r : node) (axis axis0 : Z)
    (start stop step : option Z) : result node :=
  if bad_step step then inl ValueError
  else
    let begin_ := or_0 start in
    let end_ := or_0 stop in
    if negb (Z.eqb begin_ 0) || negb (Z.eqb end_ 0)
    then inr (ops_slice r (axis + axis0) begin_ end_)
    else inr r.

(** One turn of [for axis, s in enumerate(arg)]; the loop carries
    [(r, axis0)]. *)
Definition getitem_step (len_arg : nat) (st : node * Z)
    (it : nat * pyobj) : result (node * Z) :=
  let '(r, axis0) := st in
  let '(axis, s) := it in
  match s with
  | PEllipsis => inr (r, - Z.of_nat len_arg)
  | PInt i =>
      (r' <- slice_branch r (Z.of_nat axis) axis0 (Some i) (Some (i + 1)) None ;;
       inr (r', axis0))%py
  | PSlice start stop step =>
      (r' <- slice_branch r (Z.of_nat axis) axis0 start stop step ;;
       inr (r', axis0))%py
  | PTuple items | PList items =>
      (slice_accum <- for_each (multi_select_step r (Z.of_nat axis)) items [] ;;
       if (1 <? length slice_accum)%nat
       then inr (ops_splice slice_accum (Z.of_nat axis), axis0)
       else match slice_accum with
            | x :: _ => inr (x, axis0)
            | [] => inl IndexError
            end)%py
  | POther _ => inl IndexError
  end.

Definition __getitem__ (self : node) (arg : pyobj) : result node :=
  let arg := as_tuple arg in
  (st <- for_each (getitem_step (length arg)) (enumerate arg) (self, 0) ;;
   inr (fst st))%py.

End TensorOpsMixin.

(** ** Conversion to host arrays *)

Module ArrayMixin.

(** The array behind an object: an [NDArrayView] or an [NDMask]. *)
Inductive ndav :=
| View (id : nat) (dims : list Z) (sparse : bool)
| Mask (id : nat) (dims : list Z).

Definition dims_of (a : ndav) : list Z :=
  match a with
  | View _ dims _ => dims
  | Mask _ dims => dims
  end.

(** [ndav.is_sparse()] *)
Definition is_sparse (a : ndav) : bool :=
  match a with
  | View _ _ sparse => sparse
  | Mask _ _ => false
  end.

(** A [Value]: its data, its mask if it has one, and whether it is a
    [cntk.Value] or a bare [cntk_py.Value].  [value.is_sparse()] is that
    of the data. *)
Record value := Value {
  wrapped : bool;
  data : ndav;
  mask : option ndav
}.

(** The objects that [asarray] tells apart with [isinstance];
    [wrapped] tells [cntk.Constant] from [cntk_py.Constant], and so on. *)
Inductive obj :=
| OConstant (wrapped : bool) (value : ndav)
| OParameter (wrapped : bool) (value : ndav)
| OArray (a : ndav)
| OValue (v : value)
| OMinibatchData (data : value)
| OOther (type_name : string).

Definition mask_warning : string :=
  "asarray() will ignore the mask information. Please use as_sequences() to do the proper conversion.".

Definition slow_warning : string :=
  "converting Value object to CSR format might be slow".

Section Collaborators.

(** The sources do not contain the network cache, the evaluation of a
    network, SciPy or the copy to a NumPy array; they are taken as
    given, and what happens inside them is not this layer's. *)
Variables ndarray csr_matrix network : Type.
Variable to_ndarray : ndav -> ndarray.
Variable _sparse_to_dense_network_cache : list Z -> network.
Variable device_of : obj -> string.
Variable eval : network -> obj -> string -> list ndarray + ndarray.
Variable to_csr : ndarray -> csr_matrix.

Inductive converted :=
| Dense (a : ndarray)
| Csr (m : csr_matrix)
| CsrList (ms : list csr_matrix).

(** The chain of [isinstance] tests: the array, whether it is sparse,
    and the warnings issued on the way; [None] when no test applies
    and the names stay unbound. *)
Definition select (self : obj) : option (ndav * bool * list string) :=
  match self with
  | OConstant _ ndav | OParameter _ ndav => Some (ndav, is_sparse ndav, [])
  | OArray ndav => Some (ndav, is_sparse ndav, [])
  | OValue value | OMinibatchData value =>
      let is_sparse := is_sparse (data value) in
      let has_mask := bool_decide (mask value <> None) in
      let ndav := data value in
      Some (ndav, is_sparse, if has_mask then [mask_warning] else [])
  | OOther _ => None
  end.

Definition asarray (self : obj) : result converted * list string :=
  match select self with
  | None => (inl UnboundLocalError, [])
  | Some (ndav, is_sparse, warned) =>
      if is_sparse
      then
        match last (dims_of ndav) with
        | None => (inl IndexError, warned)
        | Some n =>
            let network := _sparse_to_dense_network_cache [n] in
            let dense_data := eval network self (device_of self) in
            (inr match dense_data with
                 | inl ds => CsrList (map to_csr ds)
                 | inr d => Csr (to_csr d)
                 end,
             warned ++ [slow_warning])
        end
      else (inr (Dense (to_ndarray ndav)), warned)
  end.

End Collaborators.

Arguments Dense {ndarray csr_matrix} a.
Arguments Csr {ndarray csr_matrix} m.
Arguments CsrList {ndarray csr_matrix} ms.

(** The same object without its mask. *)
Definition without_mask (self : obj) : obj :=
  match self with
  | OValue v => OValue (Value (wrapped v) (data v) None)
  | OMinibatchData v => OMinibatchData (Value (wrapped v) (data v) None)
  | _ => self
  end.

(** A [Value] or [MinibatchData] that has a mask. *)
Definition carries_mask (self : obj) : bool :=
  match self with
  | OValue v | OMinibatchData v => bool_decide (mask v <> None)
  | _ => false
  end.

Definition payload (self : obj) : option ndav :=
  match self with
  | OValue v | OMinibatchData v => Some (data v)
  | _ => None
  end.

End ArrayMixin.

(** ** Direct-mode overloads on array views *)

(** A handle on an array of the native runtime, as the layer sees it:
    the identity of the Python object and the attributes it reads. *)
Record NDArrayView := {
  oid : nat;
  shape : list Z;
  dtype : string;
  device : string;
  is_read_only : bool;
  __class__ : string
}.

(** [res.__class__ = c] *)
Definition set_class (res : NDArrayView) (c : string) : NDArrayView :=
  {| oid := oid res; shape := shape res; dtype := dtype res;
     device := device res; is_read_only := is_read_only res;
     __class__ := c |}.

(** The [shape] argument of the constructor is either a tuple or, as in
    [shape=(other.shape[0])], a bare int. *)
Inductive shape_arg :=
| ShapeInt (n : Z)
| ShapeTuple (dims : list Z).

(** The calls into the native runtime, with their arguments in the
    order of the call.  In [matrix_product] the flag written after an
    operand is the transposition of that operand ([dot_transpose] passes
    [True] after [other], "other gets transposed"). *)
Inductive prim :=
| numeric_operation (operands : list NDArrayView) (alpha : Q) (opcode : Z)
| numeric_operation_in_place (self : NDArrayView) (self_scale : Q)
    (operands : list NDArrayView) (other_scale : Q) (combine_mode opcode : Z)
| matrix_product (trans_out : bool) (first : NDArrayView) (trans_first : bool)
    (second : NDArrayView) (trans_second : bool) (alpha : Q) (output_rank : Z)
| slice_view (self : NDArrayView) (start_offsets : list pyobj)
    (extents : list Z) (read_only : bool)
| as_shape (self : NDArrayView) (new_shape : list Z)
| NDArrayView_new (shape : shape_arg) (data_type : string) (device : string).

(** What a call returns when it does not raise. *)
Definition resp (c : prim) : Type :=
  match c with
  | numeric_operation_in_place _ _ _ _ _ _ => unit
  | _ => NDArrayView
  end.

(** What [print] is given. *)
Inductive printed :=
| PrShape (s : list Z)
| PrView (v : NDArrayView)
| PrStr (s : string)
| PrNum (n : Z).

(** Programs over the runtime: return, raise, call a primitive and go on
    with its result, or print and go on. *)
Inductive prog (R : Type) : Type :=
| Ret (r : R)
| Raise (e : exn)
| Call (c : prim) (k : resp c -> prog R)
| Print (items : list printed) (k : prog R).

Arguments Ret {R} r.
Arguments Raise {R} e.
Arguments Call {R} c k.
Arguments Print {R} items k.

Fixpoint pbind {A B} (m : prog A) (k : A -> prog B) : prog B :=
  match m with
  | Ret a => k a
  | Raise e => Raise e
  | Call c k' => Call c (fun x => pbind (k' x) k)
  | Print items k' => Print items (pbind k' k)
  end.

Definition call (c : prim) : prog (resp c) := Call c Ret.
Definition print (items : list printed) : prog unit := Print items (Ret tt).
Definition lift {A} (m : result A) : prog A :=
  match m with
  | inl e => Raise e
  | inr a => Ret a
  end.

Declare Scope prog_scope.
Delimit Scope prog_scope with prog.
Notation "x <- m ;; k" := (pbind m (fun x => k))
  (at level 100, m at next level, right associativity) : prog_scope.
Notation "m ;; k" := (pbind m (fun _ => k))
  (at level 100, right associativity) : prog_scope.

(** A [for] loop whose body calls the runtime. *)
Fixpoint pfor {A} (body : A -> prog unit) (l : list A) : prog unit :=
  match l with
  | [] => Ret tt
  | x :: l' => (body x ;; pfor body l')%prog
  end.

(** *** Running a program against a runtime *)

(** A runtime answers every call with a result or an exception and may
    change its own state. *)
Definition runtime (St : Type) : Type := forall c : prim, St -> result (resp c) * St.

Inductive event :=
| ECall (c : prim)
| EPrint (items : list printed).

Record outcome (St R : Type) := Outcome {
  returned : result R;
  final : St;
  issued : list event
}.
Arguments Outcome {St R}.
Arguments returned {St R}.
Arguments final {St R}.
Arguments issued {St R}.

Definition after {St R} (e : event) (o : outcome St R) : outcome St R :=
  Outcome (returned o) (final o) (e :: issued o).

Fixpoint run {St R} (rt : runtime St) (p : prog R) (s : St) : outcome St R :=
  match p with
  | Ret r => Outcome (inr r) s []
  | Raise e => Outcome (inl e) s []
  | Call c k =>
      match rt c s with
      | (inl e, s') => Outcome (inl e) s' [ECall c]
      | (inr x, s') => after (ECall c) (run rt (k x) s')
      end
  | Print items k => after (EPrint items) (run rt k s)
  end.

(** The calls to the runtime among the events. *)
Definition calls (tr : list event) : list prim :=
  omap (fun e => match e with ECall c => Some c | EPrint _ => None end) tr.

Module NDArrayViewOpsMixin.

Local Open Scope prog_scope.

(** [l[i]] and [l[i] = v] for an index that is not negative *)
Definition index {A} (l : list A) (i : nat) : result A :=
  match l !! i with
  | Some x => inr x
  | None => inl IndexError
  end.

Definition assign {A} (l : list A) (i : nat) (v : A) : result (list A) :=
  if (i <? length l)%nat then inr (<[i:=v]> l) else inl IndexError.

Definition _num_op (operands : list NDArrayView) (alpha : Q) (op : Z)
    : prog NDArrayView :=
  res <- call (numeric_operation operands alpha op) ;;
  first <- lift (index operands 0) ;;
  Ret (set_class res (__class__ first)).

Definition _mat_prod (a0 : bool) (a1 : NDArrayView) (a2 : bool)
    (a3 : NDArrayView) (a4 : bool) (a5 : Q) (a6 : Z) : prog NDArrayView :=
  res <- call (matrix_product a0 a1 a2 a3 a4 a5 a6) ;;
  Ret (set_class res (__class__ a1)).

(** *** Infix operators *)

Definition __add__ (self other : NDArrayView) : prog NDArrayView :=
  _num_op [self; other] 1 24.

Definition __sub__ (self other : NDArrayView) : prog NDArrayView :=
  _num_op [self; other] 1 25.

Definition __mul__ (self other : NDArrayView) : prog NDArrayView :=
  _num_op [self; other] 1 26.

Definition __radd__ := __add__.
Definition __rmul__ := __mul__.

(** *** In-place variants *)

Definition __iadd__ (self other : NDArrayView) : prog NDArrayView :=
  call (numeric_operation_in_place self 1 [other] 1 2 24) ;;
  Ret self.

Definition __isub__ (self other : NDArrayView) : prog NDArrayView :=
  call (numeric_operation_in_place self 1 [other] (-1) 2 24) ;;
  Ret self.

(** *** Matrix product *)

Definition __matmul__ (self other : NDArrayView) : prog NDArrayView :=
  self <- (if (length (shape self) =? 0)%nat
           then
             d <- lift (index (shape other) 0) ;;
             self1 <- call (NDArrayView_new (ShapeInt d) (dtype other) (device other)) ;;
             call (numeric_operation_in_place self1 0 [self] 1 2 24) ;;
             Ret self1
           else Ret self) ;;
  _mat_prod false other false self false 1 1.



(** *** Non-linearities and reductions *)

Definition sigmoid (self : NDArrayView) : prog NDArrayView := _num_op [self] 1 8.
Definition tanh (self : NDArrayView) : prog NDArrayView := _num_op [self] 1 9.
Definition relu (self : NDArrayView) : prog NDArrayView := _num_op [self] 1 14.

Definition reduce_log_sum (self : NDArrayView) : prog NDArrayView :=
  res <- call (NDArrayView_new (ShapeTuple []) (dtype self) (device self)) ;;
  call (numeric_operation_in_place res 0 [self] 1 2 28) ;;
  Ret res.

(** *** Shapes, slicing and splicing *)

Definition reshape (self : NDArrayView) (new_shape : list Z) : prog NDArrayView :=
  res <- call (as_shape self new_shape) ;;
  Ret (set_class res (__class__ self)).

(** The variables that the loop of [__getitem__] updates. *)
Record locals := Locals {
  start_offsets : list pyobj;
  extents : list Z;
  dims_to_keep : list bool;
  i_off : Z
}.

(** One turn of [for i, s in enumerate(key)]. *)
Definition getitem_step (shape : list Z) (st : locals)
    (it : nat * pyobj) : result locals :=
  let '(i, s) := it in
  match s with
  | PEllipsis =>
      inr (Locals (start_offsets st) (extents st) (dims_to_keep st)
             (- Z.of_nat (length shape)))
  | PSlice start stop step =>
      (let begin_ := or_0 start in
       end_ <- match stop with
               | Some e => inr e
               | None => index shape i
               end ;;
       (* [s.step is not None and i[2] != 1]: [i] is an int *)
       _ <- match step with
            | Some _ => inl TypeError
            | None => inr tt
            end ;;
       begin_ <- (if begin_ <? 0
                  then d <- index shape i ;; inr (begin_ + d)
                  else inr begin_) ;;
       end_ <- (if end_ <? 0
                then d <- index shape i ;; inr (end_ + d)
                else inr end_) ;;
       so <- assign (start_offsets st) i (PInt begin_) ;;
       ex <- assign (extents st) i (end_ - begin_) ;;
       dk <- assign (dims_to_keep st) i (bool_decide (stop <> None)) ;;
       inr (Locals so ex dk (i_off st)))%py
  | _ =>
      (so <- assign (start_offsets st) i s ;;
       ex <- assign (extents st) i 1 ;;
       dk <- assign (dims_to_keep st) i false ;;
       inr (Locals so ex dk (i_off st)))%py
  end.

(** [sum(((dim,) * dims_to_keep[i] for i, dim in enumerate(shape)), ())] *)
Definition kept_dims (dims_to_keep : list bool) (shape : list Z) : result (list Z) :=
  for_each
    (fun acc (it : nat * Z) =>
       (keep <- index dims_to_keep (fst it) ;;
        inr (acc ++ (if keep : bool then [snd it] else [])))%py)
    (enumerate shape) [].

Definition __getitem__ (self : NDArrayView) (key : pyobj)
    (keep_singles : bool) : prog NDArrayView :=
  let shape_ := shape self in
  let key := as_tuple key in
  st <- lift (for_each (getitem_step shape_) (enumerate key)
                (Locals (replicate (length shape_) (PInt 0)) shape_
                   (replicate (length shape_) true) 0)) ;;
  res <- call (slice_view self (start_offsets st) (extents st) (is_read_only self)) ;;
  let res := set_class res (__class__ self) in
  if negb keep_singles && negb (forallb id (dims_to_keep st))
  then
    new_shape <- lift (kept_dims (dims_to_keep st) (shape res)) ;;
    reshape res new_shape
  else Ret res.

Definition __setitem__ (self : NDArrayView) (key : pyobj)
    (value : NDArrayView) : prog unit :=
  slice <- __getitem__ self key true ;;
  call (numeric_operation_in_place slice 0 [value] 1 2 24).

(** The body of [splice] from [num_items = len(args)] on, when [shape]
    and [axis] have their final values. *)
Definition splice_along (args : list NDArrayView) (arg0 : NDArrayView)
    (shape_ : list Z) (axis : nat) : prog NDArrayView :=
  let num_items := length args in
  d <- lift (index shape_ axis) ;;
  let out_shape := take axis shape_ ++ [d * Z.of_nat num_items] ++ drop (axis + 1) shape_ in
  res <- call (NDArrayView_new (ShapeTuple out_shape) (dtype arg0) (device arg0)) ;;
  pfor (fun i : nat =>
          let key := PTuple (replicate axis (PSlice (Some 0) None None) ++ [PInt (Z.of_nat i)]) in
          a <- lift (index args i) ;;
          value <- reshape a shape_ ;;
          __setitem__ res key value)
       (seq 0 num_items) ;;
  print [PrStr "spliced"; PrNum (Z.of_nat num_items); PrStr "*";
         PrShape shape_; PrStr "into"; PrShape (shape res)] ;;
  Ret res.

Definition splice (args : list NDArrayView) (axis : Z) : prog NDArrayView :=
  arg0 <- lift (index args 0) ;;
  let shape_ := shape arg0 in
  print [PrShape shape_; PrView arg0] ;;
  if axis <? 0
  then splice_along args arg0 (replicate (Z.to_nat (- axis)) 1 ++ shape_) 0
  else splice_along args arg0 shape_ (Z.to_nat axis).

(** The names bound in the body of the class, with the function each
    one is bound to ([__radd__ = __add__], [dot = __matmul__]); the
    definition of [drop_axis] is commented out. *)
Definition __dict__ : gmap string attr :=
  list_to_map
    [("_num_op", Function "_num_op"); ("_mat_prod", Function "_mat_prod");
     ("__add__", Function "__add__"); ("__sub__", Function "__sub__");
     ("__mul__", Function "__mul__");
     ("__radd__", Function "__add__"); ("__rmul__", Function "__mul__");
     ("__iadd__", Function "__iadd__"); ("__isub__", Function "__isub__");
     ("__matmul__", Function "__matmul__"); ("dot", Function "__matmul__");
     ("dot_transpose", Function "dot_transpose");
     ("sigmoid", Function "sigmoid"); ("tanh", Function "tanh");
     ("relu", Function "relu"); ("reduce_log_sum", Function "reduce_log_sum");
     ("reshape", Function "reshape");
     ("__setitem__", Function "__setitem__");
     ("__getitem__", Function "__getitem__"); ("splice", Function "splice")].

End NDArrayViewOpsMixin.

(** ** Attaching the direct-mode overloads to a class *)

(** The class is seen through the attributes that [getattr] finds on it;
    [setattr] binds a name on the class itself.  The loop stops at the
    first exception and leaves the class as it is by then. *)
Fixpoint install (names : list string) (klass : gmap string attr)
    : result unit * gmap string attr :=
  match names with
  | [] => (inr tt, klass)
  | overload_name :: rest =>
      if truthy (klass !! overload_name) then (inl ValueError, klass)
      else
        match NDArrayViewOpsMixin.__dict__ !! overload_name with
        | None => (inl KeyError, klass)
        | Some f => install rest (<[overload_name := f]> klass)
        end
  end.

Definition overload_names : list string :=
  ["__add__"; "__sub__"; "__mul__";
   "__radd__"; "__rmul__";
   "__iadd__"; "__isub__";
   "__matmul__";
   "dot"; "dot_transpose";
   "sigmoid"; "tanh"; "relu";
   "reduce_log_sum";
   "reshape"; "drop_axis"; "__getitem__"; "__setitem__"; "splice"].

Definition _add_ndarrayview_ops (klass : gmap string attr)
    : result unit * gmap string attr :=
  install overload_names klass.

(** ** A reference runtime *)

Module Reference.

(** Modelled from the spec: the native runtime is not part of the
    sources.  This one hands out fresh handles, lets a slice view share
    the storage of its parent (spec, data model: "a slice view shares the
    parent's buffer"), checks the invariant of a view and the
    element count of a reshape, and remembers for every storage the
    in-place operations applied to it, so that what one handle writes
    can be read through every handle on the same storage. *)
Record state := State {
  next_oid : nat;
  storage_of : gmap nat nat;
  written : gmap nat (list prim)
}.

(** A handle that the runtime did not hand out is its own storage. *)
Definition storage (st : state) (v : NDArrayView) : nat :=
  default (oid v) (storage_of st !! oid v).

(** What has been written to the storage that [v] refers to. *)
Definition observe (st : state) (v : NDArrayView) : list prim :=
  default [] (written st !! storage st v).

(** Modelled from the spec: the number of elements of a shape; "reshape
    is only legal when the product of the new shape's dimensions equals the
    product of the old shape's dimensions". *)
Definition product (dims : list Z) : Z := foldr Z.mul 1 dims.

Definition dims_of (sh : shape_arg) : list Z :=
  match sh with
  | ShapeInt n => [n]
  | ShapeTuple dims => dims
  end.

(** Modelled from the spec: the invariant of a view, "for every axis i,
    0 <= start_offsets[i] and start_offsets[i] + extents[i] <=
    parent.shape[i]", the offsets being ints and the extents a shape. *)
Definition axis_ok (it : pyobj * Z * Z) : bool :=
  match it with
  | (PInt o, e, d) => (0 <=? o) && (0 <=? e) && (o + e <=? d)
  | _ => false
  end.

Definition valid_view (parent : list Z) (offsets : list pyobj)
    (exts : list Z) : bool :=
  (length offsets =? length parent)%nat && (length exts =? length parent)%nat
  && forallb axis_ok (zip (zip offsets exts) parent).

Definition handle (st : state) (dims : list Z) (dt dev : string)
    (ro : bool) : NDArrayView :=
  {| oid := next_oid st; shape := dims; dtype := dt; device := dev;
     is_read_only := ro; __class__ := "cntk_py.NDArrayView" |}.

Definition constructed (st : state) (dims : list Z) (dt dev : string) : NDArrayView :=
  set_class (handle st dims dt dev false) "cntk.core.NDArrayView".

(** Modelled from the spec: the spec leaves the shape of a product to
    the runtime.  Here it follows the operands in the order of the call:
    the first one, transposed if asked, gives the trailing axes.  No
    statement below depends on it. *)
Definition product_shape (first : list Z) (trans_first : bool)
    (second : list Z) (trans_second : bool) : option (list Z) :=
  let f := if trans_first then reverse first else first in
  let s := if trans_second then reverse second else second in
  match last s, head f with
  | Some k, Some k' =>
      if Z.eqb k k' then Some (removelast s ++ tail f) else None
  | _, _ => None
  end.

(** Modelled from the spec: broadcasting is the runtime's; this one
    answers elementwise operations for operands of one shape only. *)
Definition common_shape (operands : list NDArrayView) : option (list Z) :=
  match operands with
  | [] => None
  | v :: vs =>
      if forallb (fun w => bool_decide (shape w = shape v)) vs
      then Some (shape v) else None
  end.

(** Modelled from the spec: the answers of the runtime to the calls of
    the external interface.  An in-place operation is carried out whatever
    the shapes, the target taking a reduction of a larger operand, as
    [reduce_log_sum] relies on. *)
Definition respond : runtime state :=
  fun c =>
    match c as c0 return state -> result (resp c0) * state with
    | numeric_operation operands _ _ =>
        fun st =>
          match operands, common_shape operands with
          | v :: _, Some dims =>
              (inr (handle st dims (dtype v) (device v) false),
               State (S (next_oid st))
                 (<[next_oid st := next_oid st]> (storage_of st)) (written st))
          | _, _ => (inl (RuntimeFailure "ShapeMismatch"), st)
          end
    | numeric_operation_in_place self b ops a m o =>
        fun st =>
          (inr tt,
           State (next_oid st) (storage_of st)
             (<[storage st self :=
                  observe st self ++ [numeric_operation_in_place self b ops a m o]]>
                (written st)))
    | matrix_product _ first tf second ts _ _ =>
        fun st =>
          match product_shape (shape first) tf (shape second) ts with
          | Some dims =>
              (inr (handle st dims (dtype first) (device first) false),
               State (S (next_oid st))
                 (<[next_oid st := next_oid st]> (storage_of st)) (written st))
          | None => (inl (RuntimeFailure "ShapeMismatch"), st)
          end
    | slice_view self offsets exts ro =>
        fun st =>
          if valid_view (shape self) offsets exts
          then (inr (handle st exts (dtype self) (device self) ro),
                State (S (next_oid st))
                  (<[next_oid st := storage st self]> (storage_of st))
                  (written st))
          else (inl (RuntimeFailure "ShapeMismatch"), st)
    | as_shape self new_shape =>
        fun st =>
          if Z.eqb (product new_shape) (product (shape self))
          then (inr (handle st new_shape (dtype self) (device self)
                       (is_read_only self)),
                State (S (next_oid st))
                  (<[next_oid st := next_oid st]> (storage_of st))
                  (<[next_oid st := observe st self]> (written st)))
          else (inl (RuntimeFailure "ShapeMismatch"), st)
    | NDArrayView_new sh dt dev =>
        fun st =>
          (inr (constructed st (dims_of sh) dt dev),
           State (S (next_oid st))
             (<[next_oid st := next_oid st]> (storage_of st)) (written st))
    end.

(** A state in which the handles [0 .. n-1] belong to the caller. *)
Definition initial (n : nat) : state := State n ∅ ∅.

End Reference.

(** A dense array of the caller. *)
Definition array (id : nat) (dims : list Z) : NDArrayView :=
  {| oid := id; shape := dims; dtype := "float32"; device := "cpu";
     is_read_only := false; __class__ := "NDArrayView" |}.

(** ** Vocabulary of the statements *)

(** A result of the runtime, given the class [c] when it is a handle. *)
Definition then_class (c : string) (r : result NDArrayView) : result NDArrayView :=
  match r with
  | inl e => inl e
  | inr v => inr (set_class v c)
  end.

Definition raises {A} (r : result A) : bool :=
  match r with
  | inl _ => true
  | inr _ => false
  end.

(** The names of the installation list up to and including ['drop_axis']. *)
Definition names_through_drop_axis : list string := take 16 overload_names.

(** A runtime that does what it is asked when the request is legal:
    handles come with the shape asked for, a reshape that keeps the number
    of elements and a view within its parent are granted, and in-place
    operations are carried out (into a smaller target as a reduction, as
    [reduce_log_sum] relies on). *)
Record honours {St : Type} (rt : runtime St) : Prop := {
  new_honoured : forall dims dt dev s,
    exists v s', rt (NDArrayView_new (ShapeTuple dims) dt dev) s = (inr v, s')
                 /\ shape v = dims;
  reshape_honoured : forall v dims s,
    Reference.product dims = Reference.product (shape v) ->
    exists v' s', rt (as_shape v dims) s = (inr v', s') /\ shape v' = dims;
  view_honoured : forall v offsets exts ro s,
    Reference.valid_view (shape v) offsets exts = true ->
    exists w s', rt (slice_view v offsets exts ro) s = (inr w, s') /\ shape w = exts;
  write_honoured : forall v b ops a m o s,
    exists s', rt (numeric_operation_in_place v b ops a m o) s = (inr tt, s')
}.

(** [p], started in [s], returns [x] in state [s'] after the events [tr]. *)
Definition yields {St R : Type} (rt : runtime St) (p : prog R) (s : St)
    (x : R) (s' : St) (tr : list event) : Prop :=
  run rt p s = Outcome (inr x) s' tr.

(** ** The other installers *)

(** The names bound in the body of [TensorOpsMixin] ([__div__ = __truediv__],
    [__rdiv__ = __rtruediv__]). *)
Definition TensorOpsMixin_dict : gmap string attr :=
  list_to_map
    [("__add__", Function "__add__"); ("__radd__", Function "__radd__");
     ("__sub__", Function "__sub__"); ("__rsub__", Function "__rsub__");
     ("__mul__", Function "__mul__"); ("__rmul__", Function "__rmul__");
     ("__matmul__", Function "__matmul__"); ("__rmatmul__", Function "__rmatmul__");
     ("__truediv__", Function "__truediv__"); ("__rtruediv__", Function "__rtruediv__");
     ("__div__", Function "__truediv__"); ("__rdiv__", Function "__rtruediv__");
     ("__abs__", Function "__abs__"); ("__neg__", Function "__neg__");
     ("__getitem__", Function "__getitem__")].

Definition AVAILABLE_TENSOR_OPS : list string :=
  ["abs"; "add"; "div"; "getitem"; "matmul"; "mul";
   "radd"; "rdiv"; "rmatmul"; "rmul"; "rsub"; "rtruediv";
   "sub"; "truediv"; "neg"].

(** ['__%s__' % op_name] *)
Definition overload_name_of (op_name : string) : string :=
  "__" +:+ op_name +:+ "__".

(** The loop of [_add_tensor_ops]; it stops at the first exception and
    leaves the class as it is by then. *)
Fixpoint add_tensor_ops_loop (op_names : list string) (klass : gmap string attr)
    : result unit * gmap string attr :=
  match op_names with
  | [] => (inr tt, klass)
  | op_name :: rest =>
      let overload_name := overload_name_of op_name in
      if truthy (klass !! overload_name) then (inl ValueError, klass)
      else
        match TensorOpsMixin_dict !! overload_name with
        | None => (inl KeyError, klass)
        | Some f => add_tensor_ops_loop rest (<[overload_name := f]> klass)
        end
  end.

Definition _add_tensor_ops (klass : gmap string attr) : result unit * gmap string attr :=
  add_tensor_ops_loop AVAILABLE_TENSOR_OPS klass.

(** The names bound in the body of [ArrayMixin]. *)
Definition ArrayMixin_dict : gmap string attr :=
  {["asarray" := Function "asarray"]}.

Definition _add_asarray (klass : gmap string attr) : result unit * gmap string attr :=
  let member_name := "asarray" in
  if truthy (klass !! member_name) then (inl ValueError, klass)
  else
    match ArrayMixin_dict !! member_name with
    | None => (inl KeyError, klass)
    | Some f => (inr tt, <[member_name := f]> klass)
    end.

(** ** Shifting an image by one row or column ([pixelcnn/nn.py]) *)

(** Modelled from the spec: [cntk.constant] and [cntk.splice] are not part
    of the sources; the nodes they make are recorded symbolically, beside
    the nodes that indexing makes. *)
Inductive ct_node :=
| ct_of (x : TensorOpsMixin.node)
| ct_constant (value : Q) (shape : list Z)
| ct_splice (inputs : list ct_node) (axis : Z).

Module nn.

Import NDArrayViewOpsMixin.

(** [down_shift(x)], where [xs] is [x.shape]: a row of zeros, then [x]
    without its last row. *)
Definition down_shift (x : TensorOpsMixin.node) (xs : list Z) : result ct_node :=
  (xs0 <- index xs 0 ;;
   xs2 <- index xs 2 ;;
   xs1 <- index xs 1 ;;
   sliced <- TensorOpsMixin.__getitem__ x
               (PTuple [PSlice None None None; PSlice None (Some (xs1 - 1)) None;
                        PSlice None None None]) ;;
   inr (ct_splice [ct_constant 0 [xs0; 1; xs2]; ct_of sliced] 1))%py.

(** [right_shift(x)], where [xs] is [x.shape]: a column of zeros, then [x]
    without its last column. *)
Definition right_shift (x : TensorOpsMixin.node) (xs : list Z) : result ct_node :=
  (xs0 <- index xs 0 ;;
   xs1 <- index xs 1 ;;
   xs2 <- index xs 2 ;;
   sliced <- TensorOpsMixin.__getitem__ x
               (PTuple [PSlice None None None; PSlice None None None;
                        PSlice None (Some (xs2 - 1)) None]) ;;
   inr (ct_splice [ct_constant 0 [xs0; xs1; 1]; ct_of sliced] 2))%py.

End nn.

(** ** More vocabulary *)

(** Attaching the entries of [dict] under [names], one after the other:
    what the loops of the installers have in common. *)
Fixpoint attach (dict : gmap string attr) (names : list string)
    (klass : gmap string attr) : result unit * gmap string attr :=
  match names with
  | [] => (inr tt, klass)
  | n :: rest =>
      if truthy (klass !! n) then (inl ValueError, klass)
      else
        match dict !! n with
        | None => (inl KeyError, klass)
        | Some f => attach dict rest (<[n := f]> klass)
        end
  end.

(** Every entry of [dict] counts as true. *)
Definition all_true (dict : gmap string attr) : Prop :=
  forall n f, dict !! n = Some f -> truthy (Some f) = true.

(** The names that [_add_tensor_ops] attaches. *)
Definition tensor_overloads : list string := overload_name_of <$> AVAILABLE_TENSOR_OPS.

(** A selector that adds nothing to the graph: [...], or a slice whose
    bounds are [None] or [0] and whose step is [None] or [1]. *)
Definition selects_all (s : pyobj) : bool :=
  match s with
  | PEllipsis => true
  | PSlice start stop step =>
      Z.eqb (or_0 start) 0 && Z.eqb (or_0 stop) 0
      && negb (TensorOpsMixin.bad_step step)
  | _ => false
  end.

(** Whether a selector is a slice with a step other than [None] and [1]. *)
Definition has_bad_step (s : pyobj) : bool :=
  match s with
  | PSlice _ _ step => TensorOpsMixin.bad_step step
  | _ => false
  end.

(** Whether a selector is a slice with a step. *)
Definition has_step (s : pyobj) : bool :=
  match s with
  | PSlice _ _ (Some _) => true
  | _ => false
  end.

(** The slices that a tuple of ints adds to [r], the int at position [j]
    on axis [j + axis0]. *)
Definition int_slices (axis0 : Z) (r : TensorOpsMixin.node) (its : list (nat * Z))
    : TensorOpsMixin.node :=
  foldl (fun r (it : nat * Z) =>
           TensorOpsMixin.ops_slice r (Z.of_nat (fst it) + axis0) (snd it) (snd it + 1))
        r its.

(** [b] or, when it is negative, [b + d]. *)
Definition from_end (d b : Z) : Z := if b <? 0 then b + d else b.

(** The three lists of the loop of the direct-mode [__getitem__] have [n]
    entries. *)
Definition sized (n : nat) (st : NDArrayViewOpsMixin.locals) : Prop :=
  length (NDArrayViewOpsMixin.start_offsets st) = n
  /\ length (NDArrayViewOpsMixin.extents st) = n
  /\ length (NDArrayViewOpsMixin.dims_to_keep st) = n.

(** What [splice] asks for the items from number [k] on: a reshape of the
    item, a view of row [k] of the output, and a copy of the one into the
    other. *)
Fixpoint stacking (res : NDArrayView) (shape_ rest : list Z) (k : nat)
    (items : list (NDArrayView * (NDArrayView * NDArrayView))) : list prim :=
  match items with
  | [] => []
  | (a, (item, view)) :: items' =>
      as_shape a shape_
      :: slice_view res (PInt (Z.of_nat k) :: replicate (length rest) (PInt 0))
           (1 :: rest) (is_read_only res)
      :: numeric_operation_in_place (set_class view (__class__ res)) 0
           [set_class item (__class__ a)] 1 2 24
      :: stacking res shape_ rest (S k) items'
  end.

(** The runtime [rt] grants the requests of [stacking] one after the
    other, from state [s] to state [s'], and the handles of [items] are
    its answers: [item] to the reshape of [a], and [view] to the view of
    row [k] of the output. *)
Fixpoint stacked {St : Type} (rt : runtime St) (res : NDArrayView)
    (shape_ rest : list Z) (k : nat)
    (items : list (NDArrayView * (NDArrayView * NDArrayView))) (s s' : St) : Prop :=
  match items with
  | [] => s' = s
  | (a, (item, view)) :: items' =>
      exists s1 s2 s3,
        rt (as_shape a shape_) s = (inr item, s1)
        /\ rt (slice_view res (PInt (Z.of_nat k) :: replicate (length rest) (PInt 0))
                 (1 :: rest) (is_read_only res)) s1 = (inr view, s2)
        /\ rt (numeric_operation_in_place (set_class view (__class__ res)) 0
                 [set_class item (__class__ a)] 1 2 24) s2 = (inr tt, s3)
        /\ stacked rt res shape_ rest (S k) items' s3 s'
  end.

(** * Properties *)

(** ** Indexing a graph node *)

Section GraphIndexing.

Import TensorOpsMixin.

Variable self : node.

Lemma slice_branch_int axis axis0 i :
  slice_branch self axis axis0 (Some i) (Some (i + 1)) None
  = inr (ops_slice self (axis + axis0) i (i + 1)).
Proof.
  unfold slice_branch, or_0; simpl.
  destruct (Z.eqb_spec i 0) as [-> | Hi]; [reflexivity |].
  destruct (Z.eqb_spec (i + 1) 0) as [Hi1 | Hi1]; simpl.
  - rewrite Hi1. destruct (Z.eqb_spec i 0); [lia | reflexivity].
  - destruct (Z.eqb_spec i 0); [lia | reflexivity].
Qed.

(** The inner loop either meets an element that is not an int, or
    appends one slice per element, whatever its sign. *)
Lemma multi_select_loop axis idxs acc :
  for_each (multi_select_step self axis) idxs acc
  = match mapM as_int idxs with
    | None => inl IndexError
    | Some ints => inr (acc ++ map (fun i => ops_slice self axis i (i + 1)) ints)
    end.
Proof.
  revert acc. induction idxs as [| idx idxs IH]; intros acc; simpl.
  - by rewrite app_nil_r.
  - unfold multi_select_step at 1. destruct (as_int idx) as [i |]; simpl; [| done].
    rewrite IH. destruct (mapM as_int idxs) as [ints |]; simpl; [| done].
    by rewrite <- app_assoc.
Qed.

(** Every step other than [None] and [1] is refused, whatever the
    bounds of the slice. *)
Lemma bad_step_rejected start stop st :
  st <> 1 -> __getitem__ self (PSlice start stop (Some st)) = inl ValueError.
Proof.
  intros Hst. unfold __getitem__; simpl. unfold slice_branch, bad_step.
  by destruct (Z.eqb_spec st 1).
Qed.

End GraphIndexing.

(** C8, as the code has it.  Indexing a graph node with a plain int [i]
    adds [ops.slice(begin_index=i, end_index=i+1)] with [i] as given, also
    when it is negative.  Indexing with a list (or with a tuple inside the
    key) raises [IndexError] exactly when an element is not an int or
    there is no element; otherwise every element, negative ones included,
    is passed to [ops.slice] as given. *)
Theorem graph_getitem_passes_negative_indices (self : TensorOpsMixin.node) :
  let single := fun i : Z => TensorOpsMixin.ops_slice self 0 i (i + 1) in
  (forall i : Z, TensorOpsMixin.__getitem__ self (PInt i) = inr (single i))
  /\ (forall idxs : list pyobj,
         TensorOpsMixin.__getitem__ self (PList idxs)
         = match mapM as_int idxs with
           | None | Some [] => inl IndexError
           | Some [i] => inr (single i)
           | Some ints => inr (TensorOpsMixin.ops_splice (map single ints) 0)
           end)
  /\ (forall idxs : list pyobj,
         TensorOpsMixin.__getitem__ self (PTuple [PTuple idxs])
         = TensorOpsMixin.__getitem__ self (PList idxs)).
Proof.
  intros single. split; [| split].
  - intros i. unfold TensorOpsMixin.__getitem__; simpl.
    by rewrite slice_branch_int.
  - intros idxs. unfold TensorOpsMixin.__getitem__; simpl.
    rewrite multi_select_loop.
    destruct (mapM as_int idxs) as [[| i [| j ints]] |]; reflexivity.
  - reflexivity.
Qed.

(** C8, as stated, fails: a negative element of a multi-select list is
    not rejected. *)
Lemma graph_multi_select_accepts_negative :
  let x := TensorOpsMixin.Var "x" in
  TensorOpsMixin.__getitem__ x (PList [PInt (-1)])
  = inr (TensorOpsMixin.ops_slice x 0 (-1) 0)
  /\ TensorOpsMixin.__getitem__ x (PList [PInt (-1)]) <> inl IndexError.
Proof. split; [reflexivity | discriminate]. Qed.

(** ** Running programs *)

Section Running.

Context {St : Type} (rt : runtime St).


Lemma yields_ret {R} (x : R) s : yields rt (Ret x) s x s [].
Proof. reflexivity. Qed.

Lemma yields_call c s x s' :
  rt c s = (inr x, s') -> yields rt (call c) s x s' [ECall c].
Proof. intros E. unfold yields, call; simpl. by rewrite E. Qed.

Lemma yields_Call {R} c (k : resp c -> prog R) s x s1 y s2 tr :
  rt c s = (inr x, s1) -> yields rt (k x) s1 y s2 tr ->
  yields rt (Call c k) s y s2 (ECall c :: tr).
Proof. unfold yields. intros E Hk; simpl. by rewrite E, Hk. Qed.

Lemma yields_print items s : yields rt (print items) s tt s [EPrint items].
Proof. reflexivity. Qed.

(** Sequencing: the events of the two parts follow one another. *)
Lemma yields_bind {A B} (m : prog A) (k : A -> prog B) s x s1 tr1 y s2 tr2 tr :
  yields rt m s x s1 tr1 -> yields rt (k x) s1 y s2 tr2 -> tr = tr1 ++ tr2 ->
  yields rt (pbind m k) s y s2 tr.
Proof.
  unfold yields. intros Hm Hk ->. revert s tr1 Hm.
  induction m as [r | e | c k' IH | items k' IH]; intros s tr1 Hm; simpl in *.
  - injection Hm as -> -> <-. done.
  - done.
  - destruct (rt c s) as [[e | z] s']; [done |].
    destruct (run rt (k' z) s') as [r0 f0 i0] eqn:E.
    unfold after in Hm; simpl in Hm. injection Hm as -> -> <-.
    by rewrite (IH z s' i0 E).
  - destruct (run rt k' s) as [r0 f0 i0] eqn:E.
    unfold after in Hm; simpl in Hm. injection Hm as -> -> <-.
    by rewrite (IH s i0 E).
Qed.

End Running.

(** ** In-place operators *)

(** C5.  [a -= b] asks the runtime for one in-place operation on [a]
    itself, with [b] scaled by [-1.0], and hands back [a]; [a += b] does
    the same with scale [+1.0].  Nothing else is asked, in particular no
    handle is made, unlike [a - b], which asks for a new array.  On the
    reference runtime the operation is then observed through every
    handle [alias] that is the object [a]. *)
Theorem inplace_ops_mutate_receiver {St : Type} (rt : runtime St) (s : St)
    (a b : NDArrayView) :
  let sub := numeric_operation_in_place a 1 [b] (-1) 2 24 in
  let add := numeric_operation_in_place a 1 [b] 1 2 24 in
  let difference := numeric_operation [a; b] 1 25 in
  (run rt (NDArrayViewOpsMixin.__isub__ a b) s
   = Outcome (match fst (rt sub s) with inl e => inl e | inr _ => inr a end)
       (snd (rt sub s)) [ECall sub])
  /\ (run rt (NDArrayViewOpsMixin.__iadd__ a b) s
      = Outcome (match fst (rt add s) with inl e => inl e | inr _ => inr a end)
          (snd (rt add s)) [ECall add])
  /\ (run rt (NDArrayViewOpsMixin.__sub__ a b) s
      = Outcome (then_class (__class__ a) (fst (rt difference s)))
          (snd (rt difference s)) [ECall difference])
  /\ (forall (st : Reference.state) (alias : NDArrayView),
         oid alias = oid a ->
         let o := run Reference.respond (NDArrayViewOpsMixin.__isub__ a b) st in
         returned o = inr a
         /\ Reference.observe (final o) alias = Reference.observe st alias ++ [sub]
         /\ Reference.next_oid (final o) = Reference.next_oid st).
Proof.
  intros sub add difference. split; [| split; [| split]].
  - unfold NDArrayViewOpsMixin.__isub__, call; simpl. fold sub.
    by destruct (rt sub s) as [[e | x] s'].
  - unfold NDArrayViewOpsMixin.__iadd__, call; simpl. fold add.
    by destruct (rt add s) as [[e | x] s'].
  - unfold NDArrayViewOpsMixin.__sub__, NDArrayViewOpsMixin._num_op, call; simpl.
    fold difference. by destruct (rt difference s) as [[e | x] s'].
  - intros st alias Hoid; simpl. split; [reflexivity | split; [| reflexivity]].
    unfold Reference.observe, Reference.storage; simpl.
    rewrite Hoid. by rewrite lookup_insert_eq.
Qed.

Lemma inplace_ops_mutate_receiver_witness :
  let a := array 0 [2; 3] in
  let c := array 1 [2; 3] in
  let o := run Reference.respond (NDArrayViewOpsMixin.__isub__ a c)
             (Reference.initial 2) in
  returned o = inr a
  /\ Reference.observe (final o) a
     = Reference.observe (Reference.initial 2) a
       ++ [numeric_operation_in_place a 1 [c] (-1) 2 24]
  /\ Reference.next_oid (final o) = 2%nat.
Proof.
  intros a c.
  exact (proj2 (proj2 (proj2
           (inplace_ops_mutate_receiver Reference.respond (Reference.initial 2) a c)))
           (Reference.initial 2) a eq_refl).
Defined.

(** ** Matrix product *)




(** C4, as the code has it.  When the receiver [a] has no axis and [b]
    has a first extent [d], [a @ b] first makes a handle with shape
    argument [d], the element type and the device of [b]; then copies [a]
    into it in place (receiver scale 0.0, operand scale 1.0); then asks
    for the product with the new handle in the place of [a].  An
    exception of the runtime ends the sequence where it occurs. *)
Theorem matmul_materializes_scalar_receiver {St : Type} (rt : runtime St) (s : St)
    (a b : NDArrayView) (d : Z) (ds : list Z) :
  shape a = [] ->
  shape b = d :: ds ->
  let alloc := NDArrayView_new (ShapeInt d) (dtype b) (device b) in
  let o := run rt (NDArrayViewOpsMixin.__matmul__ a b) s in
  match rt alloc s with
  | (inl e, s1) => o = Outcome (inl e) s1 [ECall alloc]
  | (inr self1, s1) =>
      let copy := numeric_operation_in_place self1 0 [a] 1 2 24 in
      match rt copy s1 with
      | (inl e, s2) => o = Outcome (inl e) s2 [ECall alloc; ECall copy]
      | (inr _, s2) =>
          let prod := matrix_product false b false self1 false 1 1 in
          o = Outcome (then_class (__class__ b) (fst (rt prod s2)))
                (snd (rt prod s2)) [ECall alloc; ECall copy; ECall prod]
      end
  end.
Proof.
  intros Ha Hb alloc o. subst o.
  unfold NDArrayViewOpsMixin.__matmul__. rewrite Ha, Hb. simpl. fold alloc.
  destruct (rt alloc s) as [[e | self1] s1]; [reflexivity |]. simpl.
  destruct (rt (numeric_operation_in_place self1 0 [a] 1 2 24) s1) as [[e | []] s2];
    [reflexivity |]. simpl.
  by destruct (rt (matrix_product false b false self1 false 1 1) s2) as [[e | x] s3].
Qed.

Lemma matmul_materializes_scalar_receiver_witness :
  let a := array 0 [] in
  let b := array 1 [3; 4] in
  let self1 := set_class (array 2 [3]) "cntk.core.NDArrayView" in
  issued (run Reference.respond (NDArrayViewOpsMixin.__matmul__ a b) (Reference.initial 2))
  = [ECall (NDArrayView_new (ShapeInt 3) "float32" "cpu");
     ECall (numeric_operation_in_place self1 0 [a] 1 2 24);
     ECall (matrix_product false b false self1 false 1 1)].
Proof.
  intros a b self1.
  exact (f_equal issued
           (matmul_materializes_scalar_receiver Reference.respond (Reference.initial 2)
              a b 3 [4] eq_refl eq_refl)).
Defined.

(** C4, as stated, fails when the other operand has no axis either:
    [other.shape[0]] raises before anything is asked of the runtime. *)
Lemma matmul_two_scalars_raises :
  let o := run Reference.respond
             (NDArrayViewOpsMixin.__matmul__ (array 0 []) (array 1 []))
             (Reference.initial 2) in
  returned o = inl IndexError /\ issued o = [].
Proof. split; reflexivity. Qed.

(** ** Direct mode: indexing *)

(** C7.  On a handle of shape [(10,)] the selector [slice(-3, -1)] asks
    the runtime for one view, with start offset [7] and extent [2]
    ([-3 + 10] and [-1 + 10 - 7]); no axis is dropped, and the view is
    returned with the class of the handle. *)
Theorem getitem_normalizes_negative_slice {St : Type} (rt : runtime St) (s : St)
    (h : NDArrayView) :
  shape h = [10] ->
  let view := slice_view h [PInt 7] [2] (is_read_only h) in
  run rt (NDArrayViewOpsMixin.__getitem__ h (PSlice (Some (-3)) (Some (-1)) None) false) s
  = Outcome (then_class (__class__ h) (fst (rt view s))) (snd (rt view s))
      [ECall view].
Proof.
  intros Hh view. unfold NDArrayViewOpsMixin.__getitem__.
  rewrite Hh. subst view. cbv.
  by destruct (rt _ s) as [[e | v] s'].
Qed.

Lemma getitem_normalizes_negative_slice_witness :
  let h := array 0 [10] in
  run Reference.respond
    (NDArrayViewOpsMixin.__getitem__ h (PSlice (Some (-3)) (Some (-1)) None) false)
    (Reference.initial 1)
  = Outcome (inr (array 1 [2]))
      (Reference.State 2 {[1%nat := 0%nat]} ∅)
      [ECall (slice_view h [PInt 7] [2] false)].
Proof.
  intros h.
  exact (getitem_normalizes_negative_slice Reference.respond (Reference.initial 1) h eq_refl).
Defined.

(** C1 on the code.  For [h] of shape [(4,5,6)], [h[1:3, :, 2]] asks for
    the view with offsets [(1,0,2)] and extents [(2,5,1)] and then for a
    reshape of that view to [(2,)], not [(2,5)]: the axis selected with
    [:] is marked for removal along with the one selected with an int.
    The loop leaves [dims_to_keep = [True, False, False]], from which the
    new shape [(2,)] is computed; the runtime refuses the reshape, ten
    elements not being two.  With the stop written out, [h[1:3, 0:5, 2]],
    the result has shape [(2,5)]. *)
Theorem getitem_full_slice_axis_dropped :
  let h := array 0 [4; 5; 6] in
  let key := PTuple [PSlice (Some 1) (Some 3) None; PSlice None None None; PInt 2] in
  let key' := PTuple [PSlice (Some 1) (Some 3) None; PSlice (Some 0) (Some 5) None; PInt 2] in
  let o := run Reference.respond (NDArrayViewOpsMixin.__getitem__ h key false)
             (Reference.initial 1) in
  let o' := run Reference.respond (NDArrayViewOpsMixin.__getitem__ h key' false)
              (Reference.initial 1) in
  for_each (NDArrayViewOpsMixin.getitem_step [4; 5; 6]) (enumerate (as_tuple key))
    (NDArrayViewOpsMixin.Locals [PInt 0; PInt 0; PInt 0] [4; 5; 6] [true; true; true] 0)
  = inr (NDArrayViewOpsMixin.Locals [PInt 1; PInt 0; PInt 2] [2; 5; 1]
           [true; false; false] 0)
  /\ NDArrayViewOpsMixin.kept_dims [true; false; false] [2; 5; 1] = inr [2]
  /\ calls (issued o)
     = [slice_view h [PInt 1; PInt 0; PInt 2] [2; 5; 1] false;
        as_shape (array 1 [2; 5; 1]) [2]]
  /\ returned o = inl (RuntimeFailure "ShapeMismatch")
  /\ returned o' = inr (array 2 [2; 5]).
Proof. repeat split; reflexivity. Qed.

(** Whatever the step of a slice, the direct-mode [__getitem__] raises
    [TypeError] once it is not [None], the stop being given. *)
Lemma direct_getitem_step_type_error {St : Type} (rt : runtime St) (s : St)
    (h : NDArrayView) (start : option Z) (stop st : Z) (keep_singles : bool) :
  run rt (NDArrayViewOpsMixin.__getitem__ h (PSlice start (Some stop) (Some st))
            keep_singles) s
  = Outcome (inl TypeError) s [].
Proof. reflexivity. Qed.

(** C3 on the code.  The graph-building [__getitem__] raises [ValueError]
    for [slice(0, 10, 2)].  The direct-mode one evaluates [i[2]] on the
    position [i], an int, as soon as the step is not [None], and raises
    [TypeError] instead, before anything is asked of the runtime. *)
Theorem getitem_step_rejection {St : Type} (rt : runtime St) (s : St)
    (x : TensorOpsMixin.node) (h : NDArrayView) (keep_singles : bool) :
  let key := PSlice (Some 0) (Some 10) (Some 2) in
  TensorOpsMixin.__getitem__ x key = inl ValueError
  /\ run rt (NDArrayViewOpsMixin.__getitem__ h key keep_singles) s
     = Outcome (inl TypeError) s [].
Proof. split; reflexivity. Qed.

(** ** Splicing a single item *)

Lemma reference_honours : honours Reference.respond.
Proof.
  split.
  - intros dims dt dev s. by eexists _, _.
  - intros v dims s Hp. eexists _, _. simpl.
    apply Z.eqb_eq in Hp. by rewrite Hp.
  - intros v offsets exts ro s Hv. eexists _, _. simpl. by rewrite Hv.
  - intros v b ops a m o s. by eexists.
Qed.

Section Splice.

Import NDArrayViewOpsMixin.

Context {St : Type} (rt : runtime St) (H : honours rt).

(** Offsets [0] and the full extents are a view of any parent. *)
Lemma valid_view_whole (dims : list Z) :
  Forall (fun d => 0 < d) dims ->
  forallb Reference.axis_ok
    (zip (zip (replicate (length dims) (PInt 0)) dims) dims) = true.
Proof.
  induction 1 as [| d dims Hd _ IH]; [done |].
  cbn [length replicate zip zip_with forallb].
  apply andb_true_intro; split; [| exact IH].
  unfold Reference.axis_ok. rewrite !andb_true_iff, !Z.leb_le. lia.
Qed.

(** Leading unit axes do not change the number of elements. *)
Lemma product_ones k dims :
  Reference.product (replicate k 1 ++ dims) = Reference.product dims.
Proof.
  unfold Reference.product. induction k as [| k IH]; simpl; [done |].
  rewrite IH. lia.
Qed.

(** [res[0] = value]: a view of the first position of the first axis,
    over all of the other axes, and a copy into it; the view is the one
    the runtime answers with. *)
Lemma yields_setitem_first (res value : NDArrayView) (d : Z) (rest : list Z) (s : St) :
  shape res = d :: rest -> 0 < d -> Forall (fun d => 0 < d) rest ->
  let view := slice_view res (replicate (length (d :: rest)) (PInt 0)) (1 :: rest)
                (is_read_only res) in
  exists w s1 s',
    rt view s = (inr w, s1)
    /\ rt (numeric_operation_in_place (set_class w (__class__ res)) 0 [value] 1 2 24) s1
       = (inr tt, s')
    /\ shape w = 1 :: rest
    /\ yields rt (__setitem__ res (PTuple [PInt 0]) value) s tt s'
         [ECall view;
          ECall (numeric_operation_in_place (set_class w (__class__ res)) 0 [value] 1 2 24)].
Proof.
  intros Hres Hd Hrest view.
  destruct (view_honoured rt H res (replicate (length (d :: rest)) (PInt 0)) (1 :: rest)
              (is_read_only res) s) as (w & s1 & Ew & Hw).
  { rewrite Hres. unfold Reference.valid_view.
    rewrite length_replicate. cbn [length]. rewrite !Nat.eqb_refl.
    cbn [replicate zip zip_with forallb andb].
    apply andb_true_intro; split; [| by apply valid_view_whole].
    unfold Reference.axis_ok. rewrite !andb_true_iff, !Z.leb_le. lia. }
  destruct (write_honoured rt H (set_class w (__class__ res)) 0 [value] 1 2 24 s1)
    as (s2 & Ewr).
  exists w, s1, s2. split; [exact Ew |]. split; [exact Ewr |]. split; [done |].
  unfold __setitem__, __getitem__. rewrite Hres. simpl.
  eapply yields_Call; [exact Ew |]. exact (yields_call _ _ _ _ _ Ewr).
Qed.

(** One item along axis [0]: the output is made with the shape of the
    item, the item is reshaped to it, and the reshaped item is written at
    position [0]; the handles are the ones the runtime answers with. *)
Lemma yields_splice_one (a : NDArrayView) (d : Z) (rest : list Z) (s : St) :
  0 < d -> Forall (fun d => 0 < d) rest ->
  Reference.product (d :: rest) = Reference.product (shape a) ->
  exists res item view s1 s2 s3 s4,
    rt (NDArrayView_new (ShapeTuple (d :: rest)) (dtype a) (device a)) s = (inr res, s1)
    /\ rt (as_shape a (d :: rest)) s1 = (inr item, s2)
    /\ rt (slice_view res (replicate (length (d :: rest)) (PInt 0)) (1 :: rest)
             (is_read_only res)) s2 = (inr view, s3)
    /\ rt (numeric_operation_in_place (set_class view (__class__ res)) 0
             [set_class item (__class__ a)] 1 2 24) s3 = (inr tt, s4)
    /\ shape res = d :: rest /\ shape item = d :: rest /\ shape view = 1 :: rest
    /\ yields rt (splice_along [a] a (d :: rest) 0) s res s4
         [ECall (NDArrayView_new (ShapeTuple (d :: rest)) (dtype a) (device a));
          ECall (as_shape a (d :: rest));
          ECall (slice_view res (replicate (length (d :: rest)) (PInt 0))
                   (1 :: rest) (is_read_only res));
          ECall (numeric_operation_in_place (set_class view (__class__ res)) 0
                   [set_class item (__class__ a)] 1 2 24);
          EPrint [PrStr "spliced"; PrNum 1; PrStr "*"; PrShape (d :: rest);
                  PrStr "into"; PrShape (d :: rest)]].
Proof.
  intros Hd Hrest Hprod.
  destruct (new_honoured rt H (d :: rest) (dtype a) (device a) s)
    as (res & s1 & Enew & Hres).
  destruct (reshape_honoured rt H a (d :: rest) s1 Hprod) as (item & s2 & Eitem & Hitem).
  destruct (yields_setitem_first res (set_class item (__class__ a)) d rest s2 Hres Hd Hrest)
    as (view & s3 & s4 & Eview & Ecopy & Hview & Eset).
  exists res, item, view, s1, s2, s3, s4. repeat (split; [done |]).
  unfold splice_along.
  cbn [index lookup list_lookup lift pbind length firstn skipn app Nat.add seq pfor replicate].
  replace (d * Z.of_nat 1) with d by lia.
  change (Z.of_nat 0) with 0. change (Z.of_nat 1) with 1.
  rewrite drop_0.
  eapply yields_bind; [exact (yields_call _ _ _ _ _ Enew) | | ].
  - eapply yields_bind.
    + eapply yields_bind; [| apply yields_ret | reflexivity].
      eapply yields_bind; [| exact Eset | reflexivity].
      unfold reshape.
      eapply yields_bind;
        [exact (yields_call _ _ _ _ _ Eitem) | apply yields_ret | reflexivity].
    + rewrite Hres.
      eapply yields_bind; [apply yields_print | apply yields_ret | reflexivity].
    + reflexivity.
  - reflexivity.
Qed.

End Splice.

(** C6.  On a runtime that honours legal requests, for a handle [a] with
    positive extents.  If [a] has at least one axis, [splice([a], axis=0)]
    returns the handle that the runtime allocated for the shape of [a],
    which has that shape.  For every negative [axis], with [lifted] the
    shape of [a] with [-axis] unit axes in front, [splice([a], axis)]
    allocates the output [res] with shape [lifted], asks for [a] reshaped
    to [lifted], takes the view of the whole of [res], and copies into
    that view (opcode [2], the target scaled by [0]) the very handle that
    the runtime returned for the reshape of [a]; it asks for nothing else
    and returns [res].  So all that the output holds is [a] reshaped. *)
Theorem splice_single_item {St : Type} (rt : runtime St) (s : St) (a : NDArrayView) :
  honours rt ->
  Forall (fun d => 0 < d) (shape a) ->
  (shape a <> [] ->
   exists res s1,
     rt (NDArrayView_new (ShapeTuple (shape a)) (dtype a) (device a)) s = (inr res, s1)
     /\ returned (run rt (NDArrayViewOpsMixin.splice [a] 0) s) = inr res
     /\ shape res = shape a)
  /\ (forall axis : Z,
         axis < 0 ->
         let lifted := replicate (Z.to_nat (- axis)) 1 ++ shape a in
         exists res item view s1 s2 s3 s4,
           rt (NDArrayView_new (ShapeTuple lifted) (dtype a) (device a)) s = (inr res, s1)
           /\ rt (as_shape a lifted) s1 = (inr item, s2)
           /\ rt (slice_view res (replicate (length lifted) (PInt 0)) lifted
                    (is_read_only res)) s2 = (inr view, s3)
           /\ rt (numeric_operation_in_place (set_class view (__class__ res)) 0
                    [set_class item (__class__ a)] 1 2 24) s3 = (inr tt, s4)
           /\ shape res = lifted /\ shape item = lifted /\ shape view = lifted
           /\ run rt (NDArrayViewOpsMixin.splice [a] axis) s
              = Outcome (inr res) s4
                  [EPrint [PrShape (shape a); PrView a];
                   ECall (NDArrayView_new (ShapeTuple lifted) (dtype a) (device a));
                   ECall (as_shape a lifted);
                   ECall (slice_view res (replicate (length lifted) (PInt 0)) lifted
                            (is_read_only res));
                   ECall (numeric_operation_in_place (set_class view (__class__ res)) 0
                            [set_class item (__class__ a)] 1 2 24);
                   EPrint [PrStr "spliced"; PrNum 1; PrStr "*"; PrShape lifted;
                           PrStr "into"; PrShape lifted]]).
Proof.
  intros H Hpos. split.
  - intros Hne. destruct (shape a) as [| d rest] eqn:Ha; [done |].
    inversion Hpos as [| ? ? Hd Hrest]; subst.
    destruct (yields_splice_one rt H a d rest s Hd Hrest)
      as (res & item & view & s1 & s2 & s3 & s4 & Enew & _ & _ & _ & Hres & _ & _ & Hrun).
    { by rewrite Ha. }
    exists res, s1. split; [exact Enew |]. split; [| done].
    unfold NDArrayViewOpsMixin.splice.
    cbn [NDArrayViewOpsMixin.index lookup list_lookup lift pbind print].
    rewrite Ha. change (0 <? 0) with false. cbn [run].
    change (Z.to_nat 0) with 0%nat. unfold yields in Hrun. by rewrite Hrun.
  - intros axis Haxis lifted. subst lifted.
    destruct (Z.to_nat (- axis)) as [| k] eqn:Hk; [lia |].
    change (replicate (S k) 1 ++ shape a)
      with (1 :: replicate k 1 ++ shape a).
    assert (Hrest : Forall (fun d => 0 < d) (replicate k 1 ++ shape a)).
    { apply Forall_app; split; [| done]. apply Forall_replicate. lia. }
    destruct (yields_splice_one rt H a 1 (replicate k 1 ++ shape a) s)
      as (res & item & view & s1 & s2 & s3 & s4
          & Enew & Eitem & Eview & Ecopy & Hres & Hitem & Hview & Hrun);
      [lia | done | |].
    { change (1 :: replicate k 1 ++ shape a)
        with (replicate (S k) 1 ++ shape a).
      apply product_ones. }
    exists res, item, view, s1, s2, s3, s4.
    repeat (split; [done |]).
    unfold NDArrayViewOpsMixin.splice.
    cbn [NDArrayViewOpsMixin.index lookup list_lookup lift pbind print].
    apply Z.ltb_lt in Haxis. rewrite Haxis, Hk.
    change (replicate (S k) 1 ++ shape a)
      with (1 :: replicate k 1 ++ shape a).
    cbn [run]. unfold yields in Hrun. by rewrite Hrun.
Qed.

Lemma splice_single_item_witness :
  let a := array 0 [2; 3] in
  let st := Reference.initial 1 in
  let o := run Reference.respond (NDArrayViewOpsMixin.splice [a] (-2)) st in
  (exists out,
      returned (run Reference.respond (NDArrayViewOpsMixin.splice [a] 0) st) = inr out
      /\ shape out = [2; 3])
  /\ (exists res item view,
         returned o = inr res
         /\ shape res = [1; 1; 2; 3]
         /\ oid res = 1%nat /\ oid item = 2%nat /\ oid view = 3%nat
         /\ Reference.observe (final o) res
            = [numeric_operation_in_place (set_class view "cntk.core.NDArrayView") 0
                 [set_class item "NDArrayView"] 1 2 24]).
Proof.
  intros a st o.
  destruct (splice_single_item Reference.respond st a
              reference_honours ltac:(repeat constructor)) as [Hzero Hneg].
  split.
  - destruct (Hzero ltac:(discriminate)) as (out & s1 & _ & Hret & Hshape).
    exists out. split; [exact Hret | exact Hshape].
  - destruct (Hneg (-2) eq_refl)
      as (res & item & view & s1 & s2 & s3 & s4
          & Enew & Eitem & Eview & Ecopy & Hres & _ & _ & Hrun).
    exists res, item, view. subst o. rewrite Hrun. cbn [returned final].
    split; [reflexivity |]. split; [exact Hres |].
    injection Enew as <- <-. injection Eitem as <- <-.
    injection Eview as <- <-. injection Ecopy as <-.
    repeat split.
Defined.

(** ** Attaching the overloads *)

Lemma install_cons n rest (klass : gmap string attr) :
  install (n :: rest) klass
  = if truthy (klass !! n) then (inl ValueError, klass)
    else match NDArrayViewOpsMixin.__dict__ !! n with
         | None => (inl KeyError, klass)
         | Some f => install rest (<[n := f]> klass)
         end.
Proof. reflexivity. Qed.

(** Looks a name up in the dictionary of the mixin, by evaluation. *)
Ltac lookup_in_dict :=
  match goal with
  | |- context [NDArrayViewOpsMixin.__dict__ !! ?n] =>
      let v := eval vm_compute in (NDArrayViewOpsMixin.__dict__ !! n) in
      replace (NDArrayViewOpsMixin.__dict__ !! n) with v
        by (vm_compute; reflexivity)
  end.

(** C10, as the code has it.  For every class, [_add_ndarrayview_ops]
    raises before it completes: [ValueError] when the class already has a
    true attribute under one of the names up to ['drop_axis'], [KeyError]
    at ['drop_axis'] otherwise.  [__getitem__], [__setitem__] and [splice]
    are never attached. *)
Theorem add_ndarrayview_ops_never_completes (klass : gmap string attr) :
  fst (_add_ndarrayview_ops klass)
  = inl (if existsb (fun n => truthy (klass !! n)) names_through_drop_axis
         then ValueError else KeyError)
  /\ snd (_add_ndarrayview_ops klass) !! "__getitem__" = klass !! "__getitem__"
  /\ snd (_add_ndarrayview_ops klass) !! "__setitem__" = klass !! "__setitem__"
  /\ snd (_add_ndarrayview_ops klass) !! "splice" = klass !! "splice".
Proof.
  unfold _add_ndarrayview_ops, names_through_drop_axis, overload_names.
  cbn [take existsb].
  repeat
    (rewrite install_cons; lookup_in_dict;
     rewrite ?lookup_insert_ne by done;
     destruct (truthy (klass !! _));
     [ cbn [fst snd orb]; rewrite ?lookup_insert_ne by done; done | cbn [orb] ]).
  cbn [fst snd]. by rewrite ?lookup_insert_ne by done.
Qed.

(** C10, as stated, fails for a class that has [__add__] already: the
    guard raises [ValueError], and ['drop_axis'] is not reached. *)
Lemma add_ndarrayview_ops_value_error :
  fst (_add_ndarrayview_ops {["__add__" := Function "ndarray.__add__"]})
  = inl ValueError
  /\ fst (_add_ndarrayview_ops {["__add__" := Function "ndarray.__add__"]})
     <> inl KeyError.
Proof. split; [reflexivity | discriminate]. Qed.

(** ** Conversion of masked data *)

(** C9.  For a [Value] or a [MinibatchData] that has a mask, [asarray]
    issues the warning about the ignored mask before any other, raises
    only where it raises for the same object without mask, and returns
    the dense array of the data, or for sparse data with a trailing
    dimension the CSR matrices of what the conversion network yields. *)
Theorem asarray_warns_about_mask {ndarray csr_matrix network : Type}
    (to_ndarray : ArrayMixin.ndav -> ndarray)
    (cache : list Z -> network)
    (device_of : ArrayMixin.obj -> string)
    (eval : network -> ArrayMixin.obj -> string -> list ndarray + ndarray)
    (to_csr : ndarray -> csr_matrix)
    (self : ArrayMixin.obj) :
  let asarray := ArrayMixin.asarray ndarray csr_matrix network
                   to_ndarray cache device_of eval to_csr in
  ArrayMixin.carries_mask self = true ->
  exists nd : ArrayMixin.ndav,
    ArrayMixin.payload self = Some nd
    /\ snd (asarray self)
       = ArrayMixin.mask_warning :: snd (asarray (ArrayMixin.without_mask self))
    /\ raises (fst (asarray self))
       = raises (fst (asarray (ArrayMixin.without_mask self)))
    /\ (ArrayMixin.is_sparse nd = false ->
        fst (asarray self) = inr (ArrayMixin.Dense (to_ndarray nd)))
    /\ (forall n : Z,
           ArrayMixin.is_sparse nd = true ->
           last (ArrayMixin.dims_of nd) = Some n ->
           fst (asarray self)
           = inr match eval (cache [n]) self (device_of self) with
                 | inl ds => ArrayMixin.CsrList (map to_csr ds)
                 | inr d => ArrayMixin.Csr (to_csr d)
                 end).
Proof.
  intros asarray Hmask.
  assert (Hv : exists v, (self = ArrayMixin.OValue v \/ self = ArrayMixin.OMinibatchData v)
                         /\ ArrayMixin.mask v <> None).
  { destruct self as [| | | v | v |]; try discriminate Hmask;
      exists v; (split; [auto | by apply bool_decide_eq_true in Hmask]). }
  destruct Hv as ([w nd [m |]] & Hself & Hm); [clear Hm | done].
  exists nd. subst asarray.
  destruct Hself as [-> | ->]; unfold ArrayMixin.asarray; simpl;
    (destruct (ArrayMixin.is_sparse nd) eqn:Hsp;
     [ destruct (last (ArrayMixin.dims_of nd)) as [n |] eqn:Hlast; simpl;
       (repeat split; try done; intros n' _ Hn'; by simplify_eq)
     | simpl; repeat split; done ]).
Qed.

Lemma asarray_warns_about_mask_witness :
  let self := ArrayMixin.OValue
                (ArrayMixin.Value true (ArrayMixin.View 0 [3; 2; 5] true)
                   (Some (ArrayMixin.Mask 1 [3; 2]))) in
  let asarray := ArrayMixin.asarray (list Z) (list Z) Z ArrayMixin.dims_of
                   (fun key => default 0 (head key)) (fun _ => "cpu")
                   (fun net _ _ => inr [net]) (fun d => d) in
  fst (asarray self) = inr (ArrayMixin.Csr [5])
  /\ snd (asarray self)
     = ArrayMixin.mask_warning :: snd (asarray (ArrayMixin.without_mask self)).
Proof.
  intros self asarray.
  destruct (asarray_warns_about_mask ArrayMixin.dims_of
              (fun key => default 0 (head key)) (fun _ => "cpu")
              (fun (net : Z) _ _ => inr [net]) (fun d : list Z => d) self eq_refl)
    as (nd & Hnd & Hwarn & _ & _ & Hsparse).
  injection Hnd as <-.
  split; [exact (Hsparse 5 eq_refl eq_refl) | exact Hwarn].
Defined.

(** * Further properties *)

(** ** Indexing a graph node: whole axes, tuples, ellipsis, errors *)

Section GraphLoop.

Import TensorOpsMixin.

Lemma graph_loop_selects_all len k (key : list pyobj) r axis0 :
  forallb selects_all key = true ->
  exists axis0',
    for_each (getitem_step len) (zip (seq k (length key)) key) (r, axis0)
    = inr (r, axis0').
Proof.
  revert k axis0. induction key as [| s key IH]; intros k axis0 Hall.
  - by exists axis0.
  - cbn [forallb] in Hall. apply andb_true_iff in Hall as [Hs Hkey].
    cbn [length seq zip zip_with for_each].
    destruct s as [| | start stop step | | |]; try discriminate Hs.
    + cbn [getitem_step bind]. apply IH, Hkey.
    + cbn [getitem_step]. unfold slice_branch.
      cbn [selects_all] in Hs.
      apply andb_true_iff in Hs as [Hs Hstep].
      apply andb_true_iff in Hs as [Hb He].
      apply negb_true_iff in Hstep. rewrite Hstep, Hb, He. cbn [negb orb bind].
      apply IH, Hkey.
Qed.

Lemma graph_loop_ints len k (ints : list Z) r axis0 :
  for_each (getitem_step len) (zip (seq k (length ints)) (PInt <$> ints)) (r, axis0)
  = inr (int_slices axis0 r (zip (seq k (length ints)) ints), axis0).
Proof.
  revert k r. induction ints as [| i ints IH]; intros k r; [done |].
  cbn [length seq zip zip_with for_each fmap list_fmap getitem_step].
  rewrite slice_branch_int. cbn [bind]. by rewrite IH.
Qed.

Lemma graph_step_errors len st it e :
  getitem_step len st it = inl e ->
  (e = ValueError /\ has_bad_step (snd it) = true) \/ e = IndexError.
Proof.
  destruct st as [r axis0], it as [axis s].
  destruct s as [i | | start stop step | items | items | t]; cbn [getitem_step snd].
  - by rewrite slice_branch_int.
  - done.
  - unfold slice_branch. cbn [has_bad_step].
    destruct (bad_step step); [intros [= <-]; by left |].
    by destruct (_ || _).
  - rewrite multi_select_loop. destruct (mapM as_int items) as [ints |]; cbn [bind].
    + destruct (1 <? length _)%nat; [done |].
      destruct (_ ++ _); [intros [= <-]; by right | done].
    + intros [= <-]. by right.
  - rewrite multi_select_loop. destruct (mapM as_int items) as [ints |]; cbn [bind].
    + destruct (1 <? length _)%nat; [done |].
      destruct (_ ++ _); [intros [= <-]; by right | done].
    + intros [= <-]. by right.
  - intros [= <-]. by right.
Qed.

Lemma graph_loop_errors len (its : list (nat * pyobj)) st e :
  for_each (getitem_step len) its st = inl e ->
  (e = ValueError /\ existsb has_bad_step (snd <$> its) = true) \/ e = IndexError.
Proof.
  revert st. induction its as [| it its IH]; intros st; [done |].
  cbn [for_each fmap list_fmap existsb].
  destruct (getitem_step len st it) as [e' | st'] eqn:E; cbn [bind].
  - intros [= <-]. destruct (graph_step_errors _ _ _ _ E) as [[-> Hb] | ->]; [left | by right].
    by rewrite Hb.
  - intros H. destruct (IH _ H) as [[-> Hb] | ->]; [left | by right].
    split; [done |]. rewrite Hb. by rewrite orb_true_r.
Qed.

End GraphLoop.

(** X1.  A key made only of [...] and of slices whose bounds are [None] or
    [0] (and whose step is [None] or [1]) adds nothing to the graph: the
    node itself is returned.  In particular [x[0:0]] is [x], not an empty
    tensor. *)
Theorem graph_getitem_whole (self : TensorOpsMixin.node) (key : list pyobj) :
  forallb selects_all key = true ->
  TensorOpsMixin.__getitem__ self (PTuple key) = inr self.
Proof.
  intros Hall. unfold TensorOpsMixin.__getitem__, enumerate; cbn [as_tuple].
  by destruct (graph_loop_selects_all (length key) 0 key self 0 Hall) as [axis0 ->].
Qed.

Lemma graph_getitem_whole_witness :
  let x := TensorOpsMixin.Var "x" in
  TensorOpsMixin.__getitem__ x
    (PTuple [PSlice None None None; PSlice (Some 0) (Some 0) (Some 1); PEllipsis])
  = inr x.
Proof.
  intros x.
  exact (graph_getitem_whole x
           [PSlice None None None; PSlice (Some 0) (Some 0) (Some 1); PEllipsis] eq_refl).
Defined.

(** X2.  A tuple of ints never raises: the int at position [j] adds one
    slice [[i, i+1)] on axis [j], in the order of the tuple, and no axis
    is dropped.  After a leading [...] the axes are counted from the end:
    the int at position [j] of a key of length [n] gets axis [j - n]. *)
Theorem graph_getitem_int_tuple (self : TensorOpsMixin.node) (ints : list Z) :
  TensorOpsMixin.__getitem__ self (PTuple (PInt <$> ints))
  = inr (int_slices 0 self (enumerate ints))
  /\ TensorOpsMixin.__getitem__ self (PTuple (PEllipsis :: (PInt <$> ints)))
     = inr (int_slices (- Z.of_nat (S (length ints))) self
              (zip (seq 1 (length ints)) ints)).
Proof.
  unfold TensorOpsMixin.__getitem__, enumerate; cbn [as_tuple]. split.
  - by rewrite length_fmap, graph_loop_ints.
  - cbn [length seq zip zip_with for_each TensorOpsMixin.getitem_step bind].
    by rewrite length_fmap, graph_loop_ints.
Qed.

(** X3.  The multi-select branch does not count from the end after [...]:
    [x[..., [i, ...]]] is [x[:, [i, ...]]], on axis [1], its position in
    the key, whereas [x[..., i]] is a slice on axis [-1]. *)
Theorem graph_getitem_ellipsis_multi_select (self : TensorOpsMixin.node)
    (idxs : list pyobj) (i : Z) :
  TensorOpsMixin.__getitem__ self (PTuple [PEllipsis; PList idxs])
  = TensorOpsMixin.__getitem__ self (PTuple [PSlice None None None; PList idxs])
  /\ TensorOpsMixin.__getitem__ self (PTuple [PEllipsis; PList [PInt i]])
     = inr (TensorOpsMixin.ops_slice self 1 i (i + 1))
  /\ TensorOpsMixin.__getitem__ self (PTuple [PEllipsis; PInt i])
     = inr (TensorOpsMixin.ops_slice self (-1) i (i + 1)).
Proof.
  unfold TensorOpsMixin.__getitem__; simpl. rewrite multi_select_loop.
  split; [| split].
  - by destruct (mapM as_int idxs) as [[| a [| b ints]] |].
  - reflexivity.
  - by rewrite slice_branch_int.
Qed.

(** X4.  The graph-building [__getitem__] raises nothing but [ValueError]
    and [IndexError], and [ValueError] only when the key holds a slice
    with a step other than [None] and [1]. *)
Theorem graph_getitem_raises_only (self : TensorOpsMixin.node) (key : pyobj) (e : exn) :
  TensorOpsMixin.__getitem__ self key = inl e ->
  (e = ValueError /\ existsb has_bad_step (as_tuple key) = true) \/ e = IndexError.
Proof.
  unfold TensorOpsMixin.__getitem__, enumerate.
  destruct (for_each _ _ _) as [e' | st] eqn:E; cbn [bind]; [| done].
  intros [= <-]. destruct (graph_loop_errors _ _ _ _ E) as [[-> Hb] | ->]; [left | by right].
  split; [done |]. by rewrite snd_zip in Hb by (rewrite length_seq; lia).
Qed.

Lemma graph_getitem_raises_only_witness :
  let key := PTuple [PInt 3; PSlice None None (Some 2)] in
  (ValueError = ValueError /\ existsb has_bad_step (as_tuple key) = true)
  \/ ValueError = IndexError.
Proof.
  intros key.
  exact (graph_getitem_raises_only (TensorOpsMixin.Var "x") key ValueError eq_refl).
Defined.

(** ** The installers *)

Section Attach.

Variable dict : gmap string attr.

Lemma attach_keeps_true names (klass : gmap string attr) m :
  truthy (klass !! m) = true ->
  snd (attach dict names klass) !! m = klass !! m.
Proof.
  revert klass. induction names as [| n names IH]; intros klass Hm; [done |].
  cbn [attach]. destruct (truthy (klass !! n)) eqn:Hn; [done |].
  destruct (dict !! n) as [f |]; [| done].
  assert (n <> m) by (intros ->; congruence).
  rewrite IH; rewrite lookup_insert_ne by done; done.
Qed.

Lemma attach_other names (klass : gmap string attr) m :
  m ∉ names -> snd (attach dict names klass) !! m = klass !! m.
Proof.
  revert klass. induction names as [| n names IH]; intros klass Hm; [done |].
  apply not_elem_of_cons in Hm as [Hne Hm].
  cbn [attach]. destruct (truthy (klass !! n)); [done |].
  destruct (dict !! n) as [f |]; [| done].
  rewrite IH by done. by rewrite lookup_insert_ne.
Qed.

(** Whether the loop raises, and what, is decided by the class as it was
    at the start: the guard fires at the first name that is taken. *)
Lemma attach_outcome names (klass : gmap string attr) :
  NoDup names ->
  Forall (fun n => is_Some (dict !! n)) names ->
  fst (attach dict names klass)
  = if existsb (fun n => truthy (klass !! n)) names then inl ValueError else inr tt.
Proof.
  revert klass. induction names as [| n names IH]; intros klass Hnd Hin; [done |].
  apply NoDup_cons in Hnd as [Hn Hnd]. apply Forall_cons in Hin as [[f Hf] Hin].
  cbn [attach existsb]. destruct (truthy (klass !! n)); [done |].
  rewrite Hf. rewrite (IH _ Hnd Hin). cbn [orb].
  replace (existsb (fun n0 => truthy (<[n:=f]> klass !! n0)) names)
    with (existsb (fun n0 => truthy (klass !! n0)) names); [done |].
  clear -Hn. induction names as [| m names IH]; [done |].
  apply not_elem_of_cons in Hn as [Hne Hn]. cbn [existsb].
  rewrite lookup_insert_ne by done. by rewrite IH.
Qed.

(** After a complete run every name is bound to the entry of the
    dictionary. *)
Lemma attach_bound names (klass klass' : gmap string attr) :
  all_true dict ->
  attach dict names klass = (inr tt, klass') ->
  forall n, n ∈ names -> klass' !! n = dict !! n /\ truthy (klass' !! n) = true.
Proof.
  intros Htrue. revert klass. induction names as [| m names IH]; intros klass Hrun n Hn.
  - by apply elem_of_nil in Hn.
  - cbn [attach] in Hrun. destruct (truthy (klass !! m)) eqn:Hm; [done |].
    destruct (dict !! m) as [f |] eqn:Hf; [| done].
    destruct (decide (n = m)) as [-> | Hne].
    + assert (Hk : truthy (<[m := f]> klass !! m) = true).
      { rewrite lookup_insert_eq. by eapply Htrue. }
      pose proof (attach_keeps_true names _ m Hk) as Hkeep.
      rewrite Hrun in Hkeep. cbn [snd] in Hkeep.
      rewrite Hkeep, lookup_insert_eq, Hf. split; [done | by eapply Htrue].
    + apply elem_of_cons in Hn as [-> | Hn]; [done |]. by eapply IH.
Qed.

(** A complete run cannot be repeated. *)
Lemma attach_twice n names (klass klass' : gmap string attr) :
  all_true dict ->
  attach dict (n :: names) klass = (inr tt, klass') ->
  attach dict (n :: names) klass' = (inl ValueError, klass').
Proof.
  intros Htrue Hrun.
  destruct (attach_bound _ _ _ Htrue Hrun n) as [_ Hn]; [by left |].
  cbn [attach]. by rewrite Hn.
Qed.

(** A name that the dictionary lacks ends the loop with [KeyError], unless
    the guard fires first; the names before it stay bound. *)
Lemma attach_missing pre bad post (klass : gmap string attr) :
  NoDup (pre ++ [bad]) ->
  Forall (fun n => is_Some (dict !! n)) pre ->
  dict !! bad = None ->
  existsb (fun n => truthy (klass !! n)) (pre ++ [bad]) = false ->
  attach dict (pre ++ bad :: post) klass
  = (inl KeyError, snd (attach dict pre klass))
  /\ fst (attach dict pre klass) = inr tt.
Proof.
  revert klass. induction pre as [| n pre IH]; intros klass Hnd Hin Hbad Hfree.
  - cbn [app existsb orb] in *. rewrite orb_false_r in Hfree.
    cbn [attach]. by rewrite Hfree, Hbad.
  - cbn [app] in Hnd. apply NoDup_cons in Hnd as [Hn Hnd].
    apply Forall_cons in Hin as [[f Hf] Hin].
    cbn [app existsb] in Hfree. apply orb_false_iff in Hfree as [Hn' Hfree].
    cbn [app attach]. rewrite Hn', Hf. apply IH; try done.
    rewrite <- Hfree. clear -Hn. induction (pre ++ [bad]) as [| m l IH]; [done |].
    apply not_elem_of_cons in Hn as [Hne Hn]. cbn [existsb].
    rewrite lookup_insert_ne by done. by rewrite IH.
Qed.

End Attach.

Lemma add_tensor_ops_attach op_names (klass : gmap string attr) :
  add_tensor_ops_loop op_names klass
  = attach TensorOpsMixin_dict (overload_name_of <$> op_names) klass.
Proof.
  revert klass. induction op_names as [| op rest IH]; intros klass; [done |].
  cbn [add_tensor_ops_loop attach fmap list_fmap].
  destruct (truthy _); [done |]. destruct (TensorOpsMixin_dict !! _); [apply IH | done].
Qed.

Lemma install_attach names (klass : gmap string attr) :
  install names klass = attach NDArrayViewOpsMixin.__dict__ names klass.
Proof.
  revert klass. induction names as [| n rest IH]; intros klass; [done |].
  cbn [install attach].
  destruct (truthy _); [done |]. destruct (NDArrayViewOpsMixin.__dict__ !! _); [apply IH | done].
Qed.

Lemma list_to_map_all_true (l : list (string * attr)) :
  Forall (fun p => truthy (Some (snd p)) = true) l -> all_true (list_to_map l).
Proof.
  intros Hl n f Hn. apply elem_of_list_to_map_2 in Hn.
  rewrite Forall_forall in Hl. exact (Hl _ Hn).
Qed.

Lemma tensor_dict_all_true : all_true TensorOpsMixin_dict.
Proof. apply list_to_map_all_true. repeat constructor. Qed.

Lemma ndarrayview_dict_all_true : all_true NDArrayViewOpsMixin.__dict__.
Proof. apply list_to_map_all_true. repeat constructor. Qed.

Lemma tensor_overloads_nodup : NoDup tensor_overloads.
Proof. apply (bool_decide_unpack _). by vm_compute. Qed.

Lemma tensor_overloads_bound :
  Forall (fun n => is_Some (TensorOpsMixin_dict !! n)) tensor_overloads.
Proof. apply (bool_decide_unpack _). by vm_compute. Qed.

(** X5.  [_add_tensor_ops] raises [ValueError] exactly when the class
    already has a true attribute under one of the fifteen overload names,
    and never [KeyError]: every name of [AVAILABLE_TENSOR_OPS] is defined
    on the mixin.  When it completes, each of those names is bound to the
    mixin's function and every other attribute of the class is as it
    was. *)
Theorem add_tensor_ops_outcome (klass : gmap string attr) :
  fst (_add_tensor_ops klass)
  = (if existsb (fun n => truthy (klass !! n)) tensor_overloads
     then inl ValueError else inr tt)
  /\ (fst (_add_tensor_ops klass) = inr tt ->
      forall n : string,
        snd (_add_tensor_ops klass) !! n
        = if bool_decide (n ∈ tensor_overloads) then TensorOpsMixin_dict !! n
          else klass !! n).
Proof.
  unfold _add_tensor_ops. rewrite add_tensor_ops_attach. fold tensor_overloads. split.
  - apply attach_outcome; [apply tensor_overloads_nodup | apply tensor_overloads_bound].
  - intros Hok n.
    destruct (attach TensorOpsMixin_dict tensor_overloads klass) as [r klass'] eqn:E.
    cbn [fst snd] in *. subst r. case_bool_decide as Hn.
    + by destruct (attach_bound _ _ _ _ tensor_dict_all_true E n Hn).
    + pose proof (attach_other TensorOpsMixin_dict tensor_overloads klass n Hn) as H.
      by rewrite E in H.
Qed.

Lemma add_tensor_ops_outcome_witness :
  snd (_add_tensor_ops ∅) !! "__getitem__" = Some (Function "__getitem__")
  /\ snd (_add_tensor_ops ∅) !! "__div__" = Some (Function "__truediv__")
  /\ snd (_add_tensor_ops ∅) !! "__pow__" = None.
Proof.
  pose proof (proj2 (add_tensor_ops_outcome ∅) eq_refl) as H.
  split; [exact (H "__getitem__") | split; [exact (H "__div__") | exact (H "__pow__")]].
Defined.

(** X6.  [_add_tensor_ops] cannot be applied twice to the same class: after
    a complete run the guard raises [ValueError] and the class is left as
    it is. *)
Theorem add_tensor_ops_not_repeatable (klass klass' : gmap string attr) :
  _add_tensor_ops klass = (inr tt, klass') ->
  _add_tensor_ops klass' = (inl ValueError, klass').
Proof.
  unfold _add_tensor_ops. rewrite !add_tensor_ops_attach.
  apply attach_twice, tensor_dict_all_true.
Qed.

Lemma add_tensor_ops_not_repeatable_witness :
  _add_tensor_ops (snd (_add_tensor_ops ∅)) = (inl ValueError, snd (_add_tensor_ops ∅)).
Proof.
  exact (add_tensor_ops_not_repeatable ∅ (snd (_add_tensor_ops ∅)) eq_refl).
Defined.

(** X7.  [_add_asarray] raises [ValueError] when the class has a true
    attribute [asarray], and otherwise binds [asarray] to the mixin's
    function and changes nothing else; a second application to the class
    it produced raises [ValueError]. *)
Theorem add_asarray_outcome (klass : gmap string attr) :
  _add_asarray klass
  = (if truthy (klass !! "asarray") then (inl ValueError, klass)
     else (inr tt, <["asarray" := Function "asarray"]> klass))
  /\ (forall klass', _add_asarray klass = (inr tt, klass') ->
      _add_asarray klass' = (inl ValueError, klass')).
Proof.
  unfold _add_asarray, ArrayMixin_dict. rewrite lookup_singleton_eq. split.
  - by destruct (truthy (klass !! "asarray")).
  - intros klass'. destruct (truthy (klass !! "asarray")); [done |].
    intros [= <-]. by rewrite !lookup_insert_eq.
Qed.

Lemma add_asarray_outcome_witness :
  _add_asarray (<["asarray" := Function "asarray"]> ∅)
  = (inl ValueError, <["asarray" := Function "asarray"]> ∅).
Proof.
  exact (proj2 (add_asarray_outcome ∅) (<["asarray" := Function "asarray"]> ∅) eq_refl).
Defined.

(** X8.  When [_add_ndarrayview_ops] stops at [drop_axis], the fifteen
    names before it stay attached to the class, the other attributes are
    as they were, and a second application to that class raises
    [ValueError] at [__add__]. *)
Theorem add_ndarrayview_ops_partial (klass : gmap string attr) :
  existsb (fun n => truthy (klass !! n)) names_through_drop_axis = false ->
  let klass' := snd (_add_ndarrayview_ops klass) in
  (forall n : string,
      klass' !! n
      = if bool_decide (n ∈ take 15 overload_names) then NDArrayViewOpsMixin.__dict__ !! n
        else klass !! n)
  /\ _add_ndarrayview_ops klass' = (inl ValueError, klass').
Proof.
  intros Hfree klass'. subst klass'. unfold _add_ndarrayview_ops.
  rewrite !install_attach.
  set (pre := take 15 overload_names).
  assert (Hsplit : overload_names = pre ++ "drop_axis" :: drop 16 overload_names)
    by reflexivity.
  rewrite Hsplit.
  destruct (attach_missing NDArrayViewOpsMixin.__dict__ pre
              "drop_axis" (drop 16 overload_names) klass) as [Hrun Hpre].
  { apply (bool_decide_unpack _). by vm_compute. }
  { apply (bool_decide_unpack _). by vm_compute. }
  { by vm_compute. }
  { exact Hfree. }
  rewrite Hrun. cbn [snd].
  destruct (attach NDArrayViewOpsMixin.__dict__ pre klass) as [r klass'] eqn:E.
  cbn [fst snd] in *. subst r. split.
  - intros n. case_bool_decide as Hn.
    + by destruct (attach_bound _ _ _ _ ndarrayview_dict_all_true E n Hn).
    + pose proof (attach_other NDArrayViewOpsMixin.__dict__ _ klass n Hn) as H.
      by rewrite E in H.
  - destruct (attach_bound _ _ _ _ ndarrayview_dict_all_true E "__add__") as [_ Hadd].
    { by left. }
    rewrite <- Hsplit. unfold overload_names. cbn [attach]. by rewrite Hadd.
Qed.

Lemma add_ndarrayview_ops_partial_witness :
  snd (_add_ndarrayview_ops ∅) !! "reshape" = Some (Function "reshape")
  /\ _add_ndarrayview_ops (snd (_add_ndarrayview_ops ∅))
     = (inl ValueError, snd (_add_ndarrayview_ops ∅)).
Proof.
  assert (Hfree : existsb (fun n => truthy ((∅ : gmap string attr) !! n))
                    names_through_drop_axis = false) by (vm_compute; reflexivity).
  destruct (add_ndarrayview_ops_partial ∅ Hfree) as [H1 H2].
  split; [exact (H1 "reshape") | exact H2].
Defined.

(** ** Indexing a handle: what is asked of the runtime *)

Section DirectLoop.

Import NDArrayViewOpsMixin.

Lemma assign_length {A} (l l' : list A) i v :
  assign l i v = inr l' -> length l' = length l.
Proof.
  unfold assign. destruct (i <? length l)%nat; [| done].
  intros [= <-]. apply length_insert.
Qed.

Lemma assign_error {A} (l : list A) i v e :
  assign l i v = inl e -> e = IndexError /\ (length l <= i)%nat.
Proof.
  unfold assign. destruct (Nat.ltb_spec i (length l)); [done |].
  by intros [= <-].
Qed.

Lemma index_error {A} (l : list A) i e :
  index l i = inl e -> e = IndexError /\ (length l <= i)%nat.
Proof.
  unfold index. destruct (l !! i) eqn:E; [done |].
  intros [= <-]. split; [done |]. by apply lookup_ge_None.
Qed.

(** Case analysis on the first computation of a sequence. *)
Ltac first_bind E :=
  match goal with
  | |- context [Py.bind ?m _] => destruct m eqn:E; cbn [Py.bind]
  end.

Lemma step_sized shape n st it st' :
  sized n st -> getitem_step shape st it = inr st' -> sized n st'.
Proof.
  intros (H1 & H2 & H3). destruct it as [i s].
  destruct s as [z | | start [stop |] [step |] | items | items | t]; cbn [getitem_step Py.bind];
    try done;
    try (intros [= <-]; by repeat split);
    repeat (let E := fresh "E" in first_bind E; [done |]);
    intros [= <-]; repeat split; cbn;
    repeat match goal with
      | E : assign _ _ _ = inr _ |- _ => apply assign_length in E
      end; congruence.
Qed.

Lemma loop_sized shape n (its : list (nat * pyobj)) st st' :
  sized n st -> for_each (getitem_step shape) its st = inr st' -> sized n st'.
Proof.
  revert st. induction its as [| it its IH]; intros st Hst; cbn [for_each].
  - by intros [= <-].
  - destruct (getitem_step shape st it) as [| st1] eqn:E; [done |]. cbn [bind].
    apply IH. by eapply step_sized.
Qed.

Lemma step_errors shape st it e :
  getitem_step shape st it = inl e ->
  e = IndexError \/ (e = TypeError /\ has_step (snd it) = true).
Proof.
  destruct it as [i s].
  destruct s as [z | | start [stop |] [step |] | items | items | t];
    cbn [getitem_step Py.bind snd has_step];
    try done;
    repeat match goal with
      | |- inl TypeError = inl _ -> _ => intros [= <-]; by right
      | |- context [if ?b then _ else _] => destruct b; cbn [Py.bind]
      | |- context [Py.bind ?m _] =>
          let E := fresh "E" in
          destruct m eqn:E; cbn [Py.bind];
          [ intros [= <-]; left;
            first [ by apply assign_error in E as [-> _]
                  | by apply index_error in E as [-> _] ] |]
      end;
    done.
Qed.

Lemma loop_errors shape (its : list (nat * pyobj)) st e :
  for_each (getitem_step shape) its st = inl e ->
  e = IndexError \/ (e = TypeError /\ existsb has_step (snd <$> its) = true).
Proof.
  revert st. induction its as [| it its IH]; intros st; [done |].
  cbn [for_each fmap list_fmap existsb].
  destruct (getitem_step shape st it) as [e' | st'] eqn:E; cbn [bind].
  - intros [= <-]. destruct (step_errors _ _ _ _ E) as [-> | [-> Hb]]; [by left | right].
    by rewrite Hb.
  - intros H. destruct (IH _ H) as [-> | [-> Hb]]; [by left | right].
    split; [done |]. rewrite Hb. by rewrite orb_true_r.
Qed.

Lemma initial_sized (shape_ : list Z) :
  sized (length shape_)
    (Locals (replicate (length shape_) (PInt 0)) shape_
       (replicate (length shape_) true) 0).
Proof. repeat split; cbn; by rewrite ?length_replicate. Qed.

Lemma kept_dims_loop_errors dk (its : list (nat * Z)) acc e :
  for_each
    (fun acc (it : nat * Z) =>
       (keep <- index dk (fst it) ;;
        inr (acc ++ (if keep : bool then [snd it] else [])))%py)
    its acc = inl e ->
  e = IndexError.
Proof.
  revert acc. induction its as [| it its IH]; intros acc; [done |].
  cbn [for_each]. destruct (index dk (fst it)) as [| keep] eqn:E; cbn [Py.bind].
  - intros [= <-]. by apply index_error in E as [-> _].
  - apply IH.
Qed.

Lemma kept_dims_errors dk shape_ e : kept_dims dk shape_ = inl e -> e = IndexError.
Proof. apply kept_dims_loop_errors. Qed.

Lemma index_out_of_range {A} (l : list A) i :
  (length l <= i)%nat -> index l i = inl IndexError.
Proof. intros H. unfold index. by rewrite lookup_ge_None_2. Qed.

Lemma assign_out_of_range {A} (l : list A) i v :
  (length l <= i)%nat -> assign l i v = inl IndexError.
Proof. intros H. unfold assign. by destruct (Nat.ltb_spec i (length l)); [lia |]. Qed.

(** A selector other than [...] at a position past the last axis stops
    the loop. *)
Lemma step_out_of_range shape_ st i s :
  sized (length shape_) st -> (length shape_ <= i)%nat -> s <> PEllipsis ->
  exists e, getitem_step shape_ st (i, s) = inl e.
Proof.
  intros (H1 & H2 & H3) Hi Hs.
  destruct s as [z | | start [stop |] [step |] | items | items | t];
    cbn [getitem_step Py.bind]; try done;
    rewrite ?(index_out_of_range shape_ i Hi); cbn [Py.bind];
    repeat match goal with
      | |- context [if ?b then _ else _] => destruct b; cbn [Py.bind]
      end;
    rewrite ?(assign_out_of_range (start_offsets st)) by lia; cbn [Py.bind];
    by eexists.
Qed.

Lemma loop_out_of_range shape_ (its : list (nat * pyobj)) st j i s :
  sized (length shape_) st -> its !! j = Some (i, s) ->
  (length shape_ <= i)%nat -> s <> PEllipsis ->
  exists e, for_each (getitem_step shape_) its st = inl e.
Proof.
  revert st j. induction its as [| it its IH]; intros st j Hst Hj Hi Hs; [done |].
  cbn [for_each]. destruct j as [| j]; cbn in Hj.
  - injection Hj as ->. destruct (step_out_of_range shape_ st i s Hst Hi Hs) as [e ->].
    by exists e.
  - destruct (getitem_step shape_ st it) as [e | st1] eqn:E; cbn [Py.bind]; [by exists e |].
    eapply IH; eauto. by eapply step_sized.
Qed.

Lemma forallb_id_replicate n : forallb id (replicate n true) = true.
Proof. by induction n. Qed.

Lemma from_end_branch (d b : Z) :
  (if b <? 0 then inr (b + d) else inr b) = (inr (from_end d b) : result Z).
Proof. unfold from_end. by destruct (b <? 0). Qed.



Lemma view_at_valid (d i : Z) (rest : list Z) :
  0 <= i < d -> Forall (fun d => 0 < d) rest ->
  Reference.valid_view (d :: rest) (PInt i :: replicate (length rest) (PInt 0))
    (1 :: rest) = true.
Proof.
  intros Hi Hrest. unfold Reference.valid_view.
  cbn [length]. rewrite length_replicate, !Nat.eqb_refl.
  cbn [zip zip_with forallb andb].
  apply andb_true_intro; split; [| by apply valid_view_whole].
  unfold Reference.axis_ok. rewrite !andb_true_iff, !Z.leb_le. lia.
Qed.

Lemma view_at_invalid (d i : Z) (rest : list Z) :
  i < 0 \/ d <= i ->
  Reference.valid_view (d :: rest) (PInt i :: replicate (length rest) (PInt 0))
    (1 :: rest) = false.
Proof.
  intros Hi. unfold Reference.valid_view.
  cbn [length]. rewrite length_replicate, !Nat.eqb_refl.
  cbn [zip zip_with forallb andb].
  apply andb_false_intro1. unfold Reference.axis_ok.
  rewrite !andb_false_iff, !Z.leb_gt. lia.
Qed.


(** The program of [h[i]] once the loop has run. *)
Lemma getitem_int_program (h : NDArrayView) (d : Z) (rest : list Z) (i : Z)
    (keep_singles : bool) :
  shape h = d :: rest ->
  __getitem__ h (PInt i) keep_singles
  = Call (slice_view h (PInt i :: replicate (length rest) (PInt 0)) (1 :: rest)
            (is_read_only h))
      (fun res =>
         if negb keep_singles
         then (new_shape <- lift (kept_dims (false :: replicate (length rest) true)
                                    (shape (set_class res (__class__ h)))) ;;
               reshape (set_class res (__class__ h)) new_shape)%prog
         else Ret (set_class res (__class__ h))).
Proof.
  intros Hh. unfold __getitem__. rewrite Hh. unfold assign. simpl.
  f_equal. by destruct keep_singles.
Qed.

End DirectLoop.

(** X9.  Whatever the key, the direct-mode [__getitem__] stops before
    asking anything of the runtime, with [IndexError] or (only when the
    key holds a slice with a step) [TypeError], or it asks for one view of
    the handle, with one offset and one extent per axis of the handle and
    the handle's read-only flag, followed by at most one reshape, and by
    none when [keep_singles] is set. *)
Theorem direct_getitem_requests {St : Type} (rt : runtime St) (s : St)
    (h : NDArrayView) (key : pyobj) (keep_singles : bool) :
  let o := run rt (NDArrayViewOpsMixin.__getitem__ h key keep_singles) s in
  (issued o = [] /\ final o = s
   /\ (returned o = inl IndexError
       \/ (returned o = inl TypeError /\ existsb has_step (as_tuple key) = true)))
  \/ exists offsets exts,
       length offsets = length (shape h) /\ length exts = length (shape h)
       /\ (issued o = [ECall (slice_view h offsets exts (is_read_only h))]
           \/ (keep_singles = false
               /\ exists v dims,
                    issued o = [ECall (slice_view h offsets exts (is_read_only h));
                                ECall (as_shape v dims)])).
Proof.
  intros o. subst o. unfold NDArrayViewOpsMixin.__getitem__.
  destruct (for_each _ _ _) as [e | st] eqn:Eloop; cbn [lift pbind run].
  - left. split; [done |]. split; [done |].
    destruct (loop_errors _ _ _ _ Eloop) as [-> | [-> Hb]]; [by left | right].
    split; [done |]. unfold enumerate in Hb.
    by rewrite snd_zip in Hb by (rewrite length_seq; lia).
  - right. destruct (loop_sized _ _ _ _ _ (initial_sized (shape h)) Eloop) as (H1 & H2 & _).
    exists (NDArrayViewOpsMixin.start_offsets st), (NDArrayViewOpsMixin.extents st).
    split; [done |]. split; [done |].
    cbn [call pbind run].
    destruct (rt _ s) as [[e | v] s1]; [by left |].
    destruct (negb keep_singles
              && negb (forallb id (NDArrayViewOpsMixin.dims_to_keep st))) eqn:Hdrop;
      [| by left].
    destruct keep_singles; [done |].
    destruct (NDArrayViewOpsMixin.kept_dims _ _) as [e | dims] eqn:Ek;
      cbn [lift pbind run after issued]; [by left |].
    right. split; [done |]. eexists _, dims. unfold NDArrayViewOpsMixin.reshape.
    cbn [call pbind run].
    by destruct (rt _ s1) as [[e | v'] s2].
Qed.

(** X10.  A key without stepped slices that has a selector other than
    [...] at a position past the last axis of the handle raises
    [IndexError] before anything is asked of the runtime, whatever the
    other selectors are. *)
Theorem direct_getitem_too_many_indices {St : Type} (rt : runtime St) (s : St)
    (h : NDArrayView) (key : list pyobj) (keep_singles : bool) (i : nat) (sel : pyobj) :
  existsb has_step key = false ->
  key !! i = Some sel -> sel <> PEllipsis -> (length (shape h) <= i)%nat ->
  run rt (NDArrayViewOpsMixin.__getitem__ h (PTuple key) keep_singles) s
  = Outcome (inl IndexError) s [].
Proof.
  intros Hstep Hkey Hsel Hi. unfold NDArrayViewOpsMixin.__getitem__. cbn [as_tuple].
  destruct (loop_out_of_range (shape h) (enumerate key)
              (NDArrayViewOpsMixin.Locals (replicate (length (shape h)) (PInt 0)) (shape h)
                 (replicate (length (shape h)) true) 0) i i sel) as [e He]; try done.
  { apply initial_sized. }
  { unfold enumerate. rewrite lookup_zip_with, lookup_seq_lt by (by eapply lookup_lt_Some).
    by rewrite Hkey. }
  rewrite He. cbn [lift pbind run].
  destruct (loop_errors _ _ _ _ He) as [-> | [_ Hb]]; [done |].
  unfold enumerate in Hb. rewrite snd_zip in Hb by (rewrite length_seq; lia). congruence.
Qed.

Lemma direct_getitem_too_many_indices_witness :
  run Reference.respond
    (NDArrayViewOpsMixin.__getitem__ (array 0 [4]) (PTuple [PInt 1; PInt 2]) false)
    (Reference.initial 1)
  = Outcome (inl IndexError) (Reference.initial 1) [].
Proof.
  exact (direct_getitem_too_many_indices Reference.respond (Reference.initial 1)
           (array 0 [4]) [PInt 1; PInt 2] false 1 (PInt 2) eq_refl eq_refl
           ltac:(discriminate) ltac:(cbn; lia)).
Defined.

(** X11.  For a slice with a stop and no step on a handle with at least
    one axis, each negative bound is shifted once by the first extent [d]
    and nothing is clamped: with [b] and [e] the shifted bounds, the one
    request is a view at offset [b] of extent [e - b] on the first axis
    and whole on the others, for any bounds; no reshape follows, and the
    result is the runtime's answer with the class of the handle. *)
Theorem direct_getitem_slice_bounds {St : Type} (rt : runtime St) (s : St)
    (h : NDArrayView) (d : Z) (rest : list Z) (start : option Z) (stop : Z)
    (keep_singles : bool) :
  shape h = d :: rest ->
  let b := from_end d (or_0 start) in
  let e := from_end d stop in
  let view := slice_view h (PInt b :: replicate (length rest) (PInt 0))
                ((e - b) :: rest) (is_read_only h) in
  run rt (NDArrayViewOpsMixin.__getitem__ h (PSlice start (Some stop) None) keep_singles) s
  = Outcome (then_class (__class__ h) (fst (rt view s))) (snd (rt view s)) [ECall view].
Proof.
  intros Hh b e view. unfold NDArrayViewOpsMixin.__getitem__. rewrite Hh.
  cbn [as_tuple enumerate length seq zip zip_with for_each
       NDArrayViewOpsMixin.getitem_step Py.bind NDArrayViewOpsMixin.index
       lookup list_lookup replicate].
  rewrite !from_end_branch. unfold NDArrayViewOpsMixin.assign. simpl. fold b e view.
  destruct (rt view s) as [[err | v] s1]; [done |].
  simpl. by rewrite forallb_id_replicate, andb_false_r.
Qed.

Lemma direct_getitem_slice_bounds_witness :
  let h := array 0 [10; 3] in
  let view := slice_view h [PInt 0; PInt 0] [8; 3] false in
  run Reference.respond
    (NDArrayViewOpsMixin.__getitem__ h (PSlice None (Some (-2)) None) false)
    (Reference.initial 1)
  = Outcome (then_class "NDArrayView" (fst (Reference.respond view (Reference.initial 1))))
      (snd (Reference.respond view (Reference.initial 1))) [ECall view].
Proof.
  intros h view.
  exact (direct_getitem_slice_bounds Reference.respond (Reference.initial 1) h 10 [3]
           None (-2) false eq_refl).
Defined.

(** X12.  The direct-mode [__getitem__] does not count from the end after
    [...]: on a handle with at least two axes, the int of [h[..., j]]
    selects on the second axis, its position in the key, not on the last
    one. *)
Theorem direct_getitem_ignores_ellipsis {St : Type} (rt : runtime St) (s : St)
    (h : NDArrayView) (d0 d1 : Z) (rest : list Z) (j : Z) (keep_singles : bool) :
  shape h = d0 :: d1 :: rest ->
  head (issued (run rt (NDArrayViewOpsMixin.__getitem__ h (PTuple [PEllipsis; PInt j])
                          keep_singles) s))
  = Some (ECall (slice_view h (PInt 0 :: PInt j :: replicate (length rest) (PInt 0))
                   (d0 :: 1 :: rest) (is_read_only h))).
Proof.
  intros Hh. unfold NDArrayViewOpsMixin.__getitem__. rewrite Hh. simpl.
  by destruct (rt _ s) as [[err | v] s1].
Qed.

Lemma direct_getitem_ignores_ellipsis_witness :
  let h := array 0 [4; 5; 6] in
  head (issued (run Reference.respond
                  (NDArrayViewOpsMixin.__getitem__ h (PTuple [PEllipsis; PInt 2]) false)
                  (Reference.initial 1)))
  = Some (ECall (slice_view h [PInt 0; PInt 2; PInt 0] [4; 1; 6] false)).
Proof.
  intros h.
  exact (direct_getitem_ignores_ellipsis Reference.respond (Reference.initial 1) h 4 5 [6]
           2 false eq_refl).
Defined.

(** X13.  An int index is passed on as it is, without a bounds check and
    without counting a negative one from the end: on the reference
    runtime [h[i]] with [i < 0] or [i] at least the first extent is
    refused by the runtime, not by [__getitem__], after the one request
    for a view at offset [i], and the state is unchanged. *)
Theorem direct_getitem_int_out_of_range (st : Reference.state) (h : NDArrayView)
    (d : Z) (rest : list Z) (i : Z) (keep_singles : bool) :
  shape h = d :: rest ->
  i < 0 \/ d <= i ->
  run Reference.respond (NDArrayViewOpsMixin.__getitem__ h (PInt i) keep_singles) st
  = Outcome (inl (RuntimeFailure "ShapeMismatch")) st
      [ECall (slice_view h (PInt i :: replicate (length rest) (PInt 0)) (1 :: rest)
                (is_read_only h))].
Proof.
  intros Hh Hi. rewrite (getitem_int_program h d rest i keep_singles Hh).
  cbn [run Reference.respond]. rewrite Hh.
  by rewrite (view_at_invalid d i rest Hi).
Qed.

Lemma direct_getitem_int_out_of_range_witness :
  let h := array 0 [4; 5; 6] in
  run Reference.respond (NDArrayViewOpsMixin.__getitem__ h (PInt (-1)) false)
    (Reference.initial 1)
  = Outcome (inl (RuntimeFailure "ShapeMismatch")) (Reference.initial 1)
      [ECall (slice_view h [PInt (-1); PInt 0; PInt 0] [1; 5; 6] false)].
Proof.
  intros h.
  exact (direct_getitem_int_out_of_range (Reference.initial 1) h 4 [5; 6] (-1) false
           eq_refl ltac:(lia)).
Defined.



(** X15.  [h[i] = value], with [i] within the first axis: on the reference
    runtime the assignment asks for the view of row [i] (kept with its
    unit axis, no reshape) and for the copy of [value] into it, returns
    nothing, and the copy is written to the storage of [h] itself: it is
    observed through [h]. *)
Theorem setitem_writes_through (st : Reference.state) (h value : NDArrayView)
    (d : Z) (rest : list Z) (i : Z) :
  shape h = d :: rest -> 0 <= i < d -> Forall (fun d => 0 < d) rest ->
  (oid h < Reference.next_oid st)%nat ->
  let view := Reference.handle st (1 :: rest) (dtype h) (device h) (is_read_only h) in
  let write := numeric_operation_in_place (set_class view (__class__ h)) 0 [value] 1 2 24 in
  let o := run Reference.respond (NDArrayViewOpsMixin.__setitem__ h (PInt i) value) st in
  returned o = inr tt
  /\ issued o
     = [ECall (slice_view h (PInt i :: replicate (length rest) (PInt 0)) (1 :: rest)
                 (is_read_only h));
        ECall write]
  /\ Reference.observe (final o) h = Reference.observe st h ++ [write].
Proof.
  intros Hh Hi Hrest Hold view write o. subst o.
  unfold NDArrayViewOpsMixin.__setitem__. rewrite (getitem_int_program h d rest i true Hh).
  cbn [negb pbind run Reference.respond]. rewrite Hh, (view_at_valid d i rest Hi Hrest).
  cbn [call pbind run Reference.respond after returned issued final].
  split; [done |]. split; [done |].
  unfold Reference.observe, Reference.storage.
  cbn [Reference.written Reference.storage_of oid set_class Reference.handle].
  rewrite !lookup_insert_eq.
  rewrite (lookup_insert_ne (Reference.storage_of st)) by lia.
  by rewrite lookup_insert_eq.
Qed.

Lemma setitem_writes_through_witness :
  let st := Reference.initial 2 in
  let h := array 0 [4; 5] in
  let value := array 1 [1; 5] in
  let o := run Reference.respond (NDArrayViewOpsMixin.__setitem__ h (PInt 1) value) st in
  returned o = inr tt
  /\ length (Reference.observe (final o) h) = S (length (Reference.observe st h)).
Proof.
  intros st h value o.
  destruct (setitem_writes_through st h value 4 [5] 1 eq_refl ltac:(lia)
              ltac:(repeat constructor) ltac:(cbn; lia)) as (Hret & _ & Hobs).
  split; [exact Hret |].
  subst o. rewrite Hobs, length_app. cbn [length]. lia.
Defined.

(** ** Writing through a view, and stacking *)

Section SpliceMany.

Import NDArrayViewOpsMixin.

Context {St : Type} (rt : runtime St) (H : honours rt).

(** [res[i] = value] on a runtime that honours legal requests. *)
Lemma yields_setitem_at (res value : NDArrayView) (d : Z) (rest : list Z) (i : Z) (s : St) :
  shape res = d :: rest -> 0 <= i < d -> Forall (fun d => 0 < d) rest ->
  exists w s1 s',
    rt (slice_view res (PInt i :: replicate (length rest) (PInt 0)) (1 :: rest)
          (is_read_only res)) s = (inr w, s1)
    /\ rt (numeric_operation_in_place (set_class w (__class__ res)) 0 [value] 1 2 24) s1
       = (inr tt, s')
    /\ shape w = 1 :: rest
    /\ yields rt (__setitem__ res (PTuple [PInt i]) value) s tt s'
         [ECall (slice_view res (PInt i :: replicate (length rest) (PInt 0)) (1 :: rest)
                   (is_read_only res));
          ECall (numeric_operation_in_place (set_class w (__class__ res)) 0 [value] 1 2 24)].
Proof.
  intros Hres Hi Hrest.
  destruct (view_honoured rt H res (PInt i :: replicate (length rest) (PInt 0)) (1 :: rest)
              (is_read_only res) s) as (w & s1 & Ew & Hw).
  { rewrite Hres. by apply view_at_valid. }
  destruct (write_honoured rt H (set_class w (__class__ res)) 0 [value] 1 2 24 s1)
    as (s2 & Ewr).
  exists w, s1, s2. split; [exact Ew |]. split; [exact Ewr |]. split; [exact Hw |].
  unfold __setitem__.
  change (__getitem__ res (PTuple [PInt i]) true) with (__getitem__ res (PInt i) true).
  rewrite (getitem_int_program res d rest i true Hres). cbn [negb pbind].
  eapply yields_Call; [exact Ew |]. exact (yields_call _ _ _ _ _ Ewr).
Qed.

(** The loop over the items, from item number [k] on. *)
Lemma yields_splice_items (args : list NDArrayView) (res : NDArrayView)
    (d dn : Z) (rest : list Z) (m k : nat) (s : St) :
  shape res = dn :: rest -> Z.of_nat (length args) <= dn ->
  Forall (fun d => 0 < d) rest ->
  Forall (fun a => Reference.product (d :: rest) = Reference.product (shape a)) args ->
  (k + m = length args)%nat ->
  exists hv s',
    length hv = m
    /\ Forall (fun iv => shape (fst iv) = d :: rest /\ shape (snd iv) = 1 :: rest) hv
    /\ stacked rt res (d :: rest) rest k (zip (drop k args) hv) s s'
    /\ yields rt
         (pfor (fun i : nat =>
                  let key := PTuple (replicate 0 (PSlice (Some 0) None None)
                                       ++ [PInt (Z.of_nat i)]) in
                  a <- lift (index args i) ;;
                  value <- reshape a (d :: rest) ;;
                  __setitem__ res key value)%prog
               (seq k m)) s tt s'
         (ECall <$> stacking res (d :: rest) rest k (zip (drop k args) hv)).
Proof.
  intros Hres Hn Hrest Hargs. revert k s. induction m as [| m IH]; intros k s Hk.
  - exists [], s. split; [done |]. split; [done |].
    rewrite zip_with_nil_r. split; [done | apply yields_ret].
  - destruct (lookup_lt_is_Some_2 args k) as [a Ha]; [lia |].
    assert (Hprod : Reference.product (d :: rest) = Reference.product (shape a)).
    { rewrite Forall_forall in Hargs. apply Hargs. by eapply list_elem_of_lookup_2. }
    destruct (reshape_honoured rt H a (d :: rest) s Hprod) as (item & s1 & Eitem & Hitem).
    destruct (yields_setitem_at res (set_class item (__class__ a)) dn rest (Z.of_nat k) s1)
      as (w & s2 & s3 & Ew & Ewr & Hw & Eset); [done | lia | done |].
    destruct (IH (S k) s3) as (hv & s4 & Hlen & Hshapes & Hst & Hrun); [lia |].
    exists ((item, w) :: hv), s4. split; [cbn [length]; by rewrite Hlen |].
    split; [by apply Forall_cons |].
    rewrite (drop_S _ _ _ Ha). cbn [zip zip_with stacked stacking fmap list_fmap].
    split; [by exists s1, s2, s3 |].
    cbn [seq pfor replicate app]. eapply yields_bind; [| exact Hrun |].
    + unfold index. rewrite Ha. cbn [lift pbind].
      eapply yields_bind; [| exact Eset | reflexivity].
      unfold reshape.
      eapply yields_bind; [exact (yields_call _ _ _ _ _ Eitem) | apply yields_ret | reflexivity].
    + reflexivity.
Qed.

Lemma yields_splice_along (arg0 : NDArrayView) (others : list NDArrayView)
    (d : Z) (rest : list Z) (s : St) :
  let args := arg0 :: others in
  let n := Z.of_nat (length args) in
  0 < d -> Forall (fun d => 0 < d) rest ->
  Forall (fun a => Reference.product (d :: rest) = Reference.product (shape a)) args ->
  exists res hv s1 s',
    rt (NDArrayView_new (ShapeTuple (d * n :: rest)) (dtype arg0) (device arg0)) s
    = (inr res, s1)
    /\ shape res = d * n :: rest /\ length hv = length args
    /\ Forall (fun iv => shape (fst iv) = d :: rest /\ shape (snd iv) = 1 :: rest) hv
    /\ stacked rt res (d :: rest) rest 0 (zip args hv) s1 s'
    /\ yields rt (splice_along args arg0 (d :: rest) 0) s res s'
         (ECall (NDArrayView_new (ShapeTuple (d * n :: rest)) (dtype arg0) (device arg0))
          :: (ECall <$> stacking res (d :: rest) rest 0 (zip args hv))
          ++ [EPrint [PrStr "spliced"; PrNum n; PrStr "*"; PrShape (d :: rest);
                      PrStr "into"; PrShape (d * n :: rest)]]).
Proof.
  intros args n Hd Hrest Hargs.
  destruct (new_honoured rt H (d * n :: rest) (dtype arg0) (device arg0) s)
    as (res & s1 & Enew & Hres).
  destruct (yields_splice_items args res d (d * n) rest (length args) 0 s1)
    as (hv & s2 & Hlen & Hshapes & Hst & Hloop); try done.
  { subst n. nia. }
  rewrite drop_0 in Hst, Hloop.
  exists res, hv, s1, s2. repeat (split; [done |]).
  unfold splice_along.
  cbn [index lookup list_lookup lift pbind firstn skipn app Nat.add].
  rewrite drop_0. fold args. fold n.
  eapply yields_bind; [exact (yields_call _ _ _ _ _ Enew) | | reflexivity].
  eapply yields_bind; [exact Hloop | | reflexivity].
  rewrite Hres.
  eapply yields_bind; [apply yields_print | apply yields_ret | reflexivity].
Qed.

End SpliceMany.

(** X16.  [splice] along a negative axis of [n] handles of one shape with
    positive extents, on a runtime that honours legal requests.  The
    output [res] is allocated once with shape [n] followed by [-axis - 1]
    unit axes and the item shape (dtype and device of the first item).
    Then for each item [a], number [k], in order: [a] is reshaped to one
    row, the view of row [k] of [res] is taken, and the very handle that
    the runtime returned for the reshape of [a] is copied (opcode [2], the
    target scaled by [0]) into the very view that it returned for row
    [k].  Nothing else is asked, and [res] is returned. *)
Theorem splice_stacks {St : Type} (rt : runtime St) (s : St)
    (arg0 : NDArrayView) (others : list NDArrayView) (axis : Z) :
  honours rt -> axis < 0 ->
  Forall (fun d => 0 < d) (shape arg0) ->
  Forall (fun a => shape a = shape arg0) others ->
  let args := arg0 :: others in
  let n := Z.of_nat (length args) in
  let unit := replicate (Z.to_nat (- axis) - 1) 1 ++ shape arg0 in
  let new := NDArrayView_new (ShapeTuple (n :: unit)) (dtype arg0) (device arg0) in
  exists res hv s1 s',
    rt new s = (inr res, s1)
    /\ shape res = n :: unit
    /\ length hv = length args
    /\ Forall (fun iv => shape (fst iv) = 1 :: unit /\ shape (snd iv) = 1 :: unit) hv
    /\ stacked rt res (1 :: unit) unit 0 (zip args hv) s1 s'
    /\ run rt (NDArrayViewOpsMixin.splice args axis) s
       = Outcome (inr res) s'
           (EPrint [PrShape (shape arg0); PrView arg0]
            :: ECall new
            :: (ECall <$> stacking res (1 :: unit) unit 0 (zip args hv))
            ++ [EPrint [PrStr "spliced"; PrNum n; PrStr "*"; PrShape (1 :: unit);
                        PrStr "into"; PrShape (n :: unit)]]).
Proof.
  intros H Haxis Hpos Hsame args n unit new. subst new.
  destruct (Z.to_nat (- axis)) as [| k] eqn:Hk; [lia |].
  assert (Hunit : Forall (fun d => 0 < d) unit).
  { apply Forall_app; split; [| done]. apply Forall_replicate. lia. }
  destruct (yields_splice_along rt H arg0 others 1 unit s)
    as (res & hv & s1 & s' & Enew & Hres & Hlen & Hshapes & Hst & Hrun); [lia | done | |].
  { assert (Hp : Reference.product (1 :: unit) = Reference.product (shape arg0)).
    { change (1 :: unit) with (replicate 1 1 ++ unit). subst unit.
      by rewrite !product_ones. }
    apply Forall_cons; split; [done |].
    eapply Forall_impl; [exact Hsame |]. intros a Ha. cbn beta in Ha. by rewrite Ha. }
  fold args n in Enew, Hres, Hlen, Hst, Hrun.
  rewrite Z.mul_1_l in Enew, Hres, Hrun.
  exists res, hv, s1, s'. repeat (split; [done |]).
  unfold NDArrayViewOpsMixin.splice.
  cbn [args NDArrayViewOpsMixin.index lookup list_lookup lift pbind print].
  apply Z.ltb_lt in Haxis. rewrite Haxis, Hk.
  change (replicate (S k) 1 ++ shape arg0) with (1 :: replicate k 1 ++ shape arg0).
  replace (replicate k 1 ++ shape arg0) with unit
    by (subst unit; by rewrite Nat.sub_succ, Nat.sub_0_r).
  cbn [run]. unfold yields in Hrun. fold args. by rewrite Hrun.
Qed.

Lemma splice_stacks_witness :
  let a := array 0 [2; 3] in
  let b := array 1 [2; 3] in
  let o := run Reference.respond (NDArrayViewOpsMixin.splice [a; b] (-1))
             (Reference.initial 2) in
  exists res item0 view0 item1 view1,
    returned o = inr res
    /\ shape res = [2; 2; 3]
    /\ oid res = 2%nat
    /\ oid item0 = 3%nat /\ oid view0 = 4%nat /\ oid item1 = 5%nat /\ oid view1 = 6%nat
    /\ Reference.observe (final o) res
       = [numeric_operation_in_place (set_class view0 "cntk.core.NDArrayView") 0
            [set_class item0 "NDArrayView"] 1 2 24;
          numeric_operation_in_place (set_class view1 "cntk.core.NDArrayView") 0
            [set_class item1 "NDArrayView"] 1 2 24].
Proof.
  intros a b o.
  destruct (splice_stacks Reference.respond (Reference.initial 2) a [b] (-1)
              reference_honours eq_refl ltac:(repeat constructor)
              ltac:(repeat constructor))
    as (res & hv & s1 & s' & Enew & Hshape & Hlen & _ & Hst & Hrun).
  destruct hv as [| [item0 view0] [| [item1 view1] [| ? ?]]]; try discriminate Hlen.
  exists res, item0, view0, item1, view1. subst o. rewrite Hrun. cbn [returned final].
  split; [reflexivity |]. split; [exact Hshape |].
  destruct Hst as (t1 & t2 & t3 & E1 & E2 & E3 & u1 & u2 & u3 & F1 & F2 & F3 & Hend).
  cbn in Hend. subst s'.
  injection Enew as <- <-. injection E1 as <- <-. injection E2 as <- <-.
  injection E3 as <-. injection F1 as <- <-. injection F2 as <- <-. injection F3 as <-.
  repeat split.
Defined.

(** X17.  [splice] along axis [0] of [n] handles of one shape [d :: rest],
    on a runtime that honours legal requests and so carries out every
    copy.  The output is allocated with first extent [d * n]; but item
    number [k] is written into the single row [k] of it: the very handle
    that the runtime returned for the reshape of the item to its own shape
    [d :: rest] is copied into the very view that the runtime returned for
    offset [k] and extent [1] of the first axis, not into rows
    [k*d .. k*d+d-1].  Nothing else is asked. *)
Theorem splice_along_first_axis {St : Type} (rt : runtime St) (s : St)
    (arg0 : NDArrayView) (others : list NDArrayView) (d : Z) (rest : list Z) :
  honours rt ->
  shape arg0 = d :: rest ->
  Forall (fun d => 0 < d) (d :: rest) ->
  Forall (fun a => shape a = shape arg0) others ->
  let args := arg0 :: others in
  let n := Z.of_nat (length args) in
  let new := NDArrayView_new (ShapeTuple (d * n :: rest)) (dtype arg0) (device arg0) in
  exists res hv s1 s',
    rt new s = (inr res, s1)
    /\ shape res = d * n :: rest
    /\ length hv = length args
    /\ Forall (fun iv => shape (fst iv) = d :: rest /\ shape (snd iv) = 1 :: rest) hv
    /\ stacked rt res (d :: rest) rest 0 (zip args hv) s1 s'
    /\ run rt (NDArrayViewOpsMixin.splice args 0) s
       = Outcome (inr res) s'
           (EPrint [PrShape (d :: rest); PrView arg0]
            :: ECall new
            :: (ECall <$> stacking res (d :: rest) rest 0 (zip args hv))
            ++ [EPrint [PrStr "spliced"; PrNum n; PrStr "*"; PrShape (d :: rest);
                        PrStr "into"; PrShape (d * n :: rest)]]).
Proof.
  intros H Ha Hpos Hsame args n new. subst new.
  apply Forall_cons in Hpos as [Hd Hrest].
  destruct (yields_splice_along rt H arg0 others d rest s)
    as (res & hv & s1 & s' & Enew & Hres & Hlen & Hshapes & Hst & Hrun); [done | done | |].
  { apply Forall_cons; split; [by rewrite Ha |].
    eapply Forall_impl; [exact Hsame |]. intros a Hsa. cbn beta in Hsa.
    by rewrite Hsa, Ha. }
  fold args n in Enew, Hres, Hlen, Hst, Hrun.
  exists res, hv, s1, s'. repeat (split; [done |]).
  unfold NDArrayViewOpsMixin.splice.
  cbn [args NDArrayViewOpsMixin.index lookup list_lookup lift pbind print].
  rewrite Ha. change (0 <? 0) with false. change (Z.to_nat 0) with 0%nat.
  cbn [run]. unfold yields in Hrun. fold args. by rewrite Hrun.
Qed.

Lemma splice_along_first_axis_witness :
  let a := array 0 [2; 3] in
  let b := array 1 [2; 3] in
  let o := run Reference.respond (NDArrayViewOpsMixin.splice [a; b] 0)
             (Reference.initial 2) in
  exists res item0 view0 item1 view1,
    returned o = inr res
    /\ shape res = [4; 3]
    /\ shape item0 = [2; 3] /\ shape view0 = [1; 3]
    /\ shape item1 = [2; 3] /\ shape view1 = [1; 3]
    /\ calls (issued o)
       = [NDArrayView_new (ShapeTuple [4; 3]) "float32" "cpu";
          as_shape a [2; 3];
          slice_view res [PInt 0; PInt 0] [1; 3] false;
          numeric_operation_in_place (set_class view0 "cntk.core.NDArrayView") 0
            [set_class item0 "NDArrayView"] 1 2 24;
          as_shape b [2; 3];
          slice_view res [PInt 1; PInt 0] [1; 3] false;
          numeric_operation_in_place (set_class view1 "cntk.core.NDArrayView") 0
            [set_class item1 "NDArrayView"] 1 2 24].
Proof.
  intros a b o.
  destruct (splice_along_first_axis Reference.respond (Reference.initial 2) a [b] 2 [3]
              reference_honours eq_refl ltac:(repeat constructor)
              ltac:(repeat constructor))
    as (res & hv & s1 & s' & Enew & Hshape & Hlen & Hshapes & Hst & Hrun).
  destruct hv as [| [item0 view0] [| [item1 view1] [| ? ?]]]; try discriminate Hlen.
  exists res, item0, view0, item1, view1. subst o. rewrite Hrun. cbn [returned issued].
  split; [reflexivity |]. split; [exact Hshape |].
  apply Forall_cons in Hshapes as [[Hi0 Hv0] Hshapes].
  apply Forall_cons in Hshapes as [[Hi1 Hv1] _].
  repeat (split; [assumption |]).
  injection Enew as <- <-. reflexivity.
Defined.

(** X18.  [splice] of no items raises [IndexError] at once; with an axis
    that is not negative and not an axis of the first item it raises
    [IndexError] after its diagnostic print, and asks nothing of the
    runtime. *)
Theorem splice_rejects {St : Type} (rt : runtime St) (s : St) :
  (forall axis : Z,
      run rt (NDArrayViewOpsMixin.splice [] axis) s = Outcome (inl IndexError) s [])
  /\ (forall (arg0 : NDArrayView) (others : list NDArrayView) (axis : Z),
         0 <= axis -> (length (shape arg0) <= Z.to_nat axis)%nat ->
         run rt (NDArrayViewOpsMixin.splice (arg0 :: others) axis) s
         = Outcome (inl IndexError) s [EPrint [PrShape (shape arg0); PrView arg0]]).
Proof.
  split; [done |]. intros arg0 others axis Haxis Hrank.
  unfold NDArrayViewOpsMixin.splice.
  cbn [NDArrayViewOpsMixin.index lookup list_lookup lift pbind print].
  destruct (Z.ltb_spec axis 0); [lia |].
  unfold NDArrayViewOpsMixin.splice_along.
  by rewrite (index_out_of_range (shape arg0) (Z.to_nat axis) Hrank).
Qed.

Lemma splice_rejects_witness :
  run Reference.respond (NDArrayViewOpsMixin.splice [array 0 [2; 3]] 2) (Reference.initial 1)
  = Outcome (inl IndexError) (Reference.initial 1)
      [EPrint [PrShape [2; 3]; PrView (array 0 [2; 3])]].
Proof.
  exact (proj2 (splice_rejects Reference.respond (Reference.initial 1))
           (array 0 [2; 3]) [] 2 ltac:(lia) ltac:(cbn; lia)).
Defined.

(** ** Conversion to host arrays: exceptions and warnings *)



(** X20.  When [asarray] returns, the slow-conversion warning was issued
    exactly when the result is not a dense array (it is one CSR matrix or
    a list of them), the mask warning exactly when the object is a
    [Value] or [MinibatchData] with a mask, and nothing else was
    issued. *)
Theorem asarray_slow_warning_iff_sparse {ndarray csr_matrix network : Type}
    (to_ndarray : ArrayMixin.ndav -> ndarray)
    (cache : list Z -> network)
    (device_of : ArrayMixin.obj -> string)
    (eval : network -> ArrayMixin.obj -> string -> list ndarray + ndarray)
    (to_csr : ndarray -> csr_matrix)
    (self : ArrayMixin.obj) (r : ArrayMixin.converted ndarray csr_matrix)
    (w : list string) :
  ArrayMixin.asarray ndarray csr_matrix network to_ndarray cache device_of eval to_csr self
  = (inr r, w) ->
  (ArrayMixin.slow_warning ∈ w <-> forall a, r <> ArrayMixin.Dense a)
  /\ (ArrayMixin.mask_warning ∈ w <-> ArrayMixin.carries_mask self = true)
  /\ w = (if ArrayMixin.carries_mask self then [ArrayMixin.mask_warning] else [])
         ++ (if bool_decide (ArrayMixin.slow_warning ∈ w)
             then [ArrayMixin.slow_warning] else []).
Proof.
  unfold ArrayMixin.asarray.
  assert (Hw : forall nd sparse warned,
            ArrayMixin.select self = Some (nd, sparse, warned) ->
            warned = (if ArrayMixin.carries_mask self
                      then [ArrayMixin.mask_warning] else [])).
  { intros nd sparse warned.
    destruct self as [| | | v | v |]; cbn; by intros [= <- <- <-]. }
  destruct (ArrayMixin.select self) as [[[nd sparse] warned] |] eqn:Hsel; [| done].
  rewrite (Hw _ _ _ eq_refl).
  destruct sparse.
  - destruct (last (ArrayMixin.dims_of nd)); [| done]. intros [= <- <-].
    destruct (ArrayMixin.carries_mask self); cbn; (split; [| split]).
    + split; [by destruct (eval _ _ _) | intros _; set_solver].
    + split; [done | set_solver].
    + by rewrite bool_decide_eq_true_2 by set_solver.
    + split; [by destruct (eval _ _ _) | intros _; set_solver].
    + split; [| done]. intros Hin. apply list_elem_of_singleton in Hin. discriminate.
    + by rewrite bool_decide_eq_true_2 by set_solver.
  - intros [= <- <-]. destruct (ArrayMixin.carries_mask self); cbn; (split; [| split]).
    + split; [| intros Hr; by destruct (Hr (to_ndarray nd))].
      intros Hin. apply list_elem_of_singleton in Hin. discriminate.
    + split; [done | set_solver].
    + rewrite bool_decide_eq_false_2; [done |].
      intros Hin. apply list_elem_of_singleton in Hin. discriminate.
    + split; [| intros Hr; by destruct (Hr (to_ndarray nd))].
      intros Hin. by apply elem_of_nil in Hin.
    + split; [| done]. intros Hin. by apply elem_of_nil in Hin.
    + rewrite bool_decide_eq_false_2; [done |]. apply not_elem_of_nil.
Qed.

Lemma asarray_slow_warning_iff_sparse_witness :
  let self := ArrayMixin.OValue
                (ArrayMixin.Value true (ArrayMixin.View 0 [3; 2; 5] true)
                   (Some (ArrayMixin.Mask 1 [3; 2]))) in
  ArrayMixin.slow_warning ∈ [ArrayMixin.mask_warning; ArrayMixin.slow_warning]
  <-> forall a : list Z, ArrayMixin.Csr (ndarray := list Z) [5] <> ArrayMixin.Dense a.
Proof.
  intros self.
  exact (proj1 (asarray_slow_warning_iff_sparse ArrayMixin.dims_of
                  (fun key => default 0 (head key)) (fun _ => "cpu")
                  (fun (net : Z) _ _ => inr [net]) (fun d : list Z => d) self
                  (ArrayMixin.Csr [5])
                  [ArrayMixin.mask_warning; ArrayMixin.slow_warning] eq_refl)).
Defined.

(** ** Shifting an image *)

(** X21.  For an input with at least three axes, [down_shift] puts a row
    of zeros before [x[:, :h-1, :]] and [right_shift] a column of zeros
    before [x[:, :, :w-1]].  When the input has a single row (column), the
    stop [0] selects the whole axis: the input is spliced in whole, not
    emptied. *)
Theorem shifts_keep_all_of_a_single_row (x : TensorOpsMixin.node) (c h w : Z)
    (more : list Z) :
  nn.down_shift x (c :: h :: w :: more)
  = inr (ct_splice
           [ct_constant 0 [c; 1; w];
            ct_of (if Z.eqb h 1 then x else TensorOpsMixin.ops_slice x 1 0 (h - 1))] 1)
  /\ nn.right_shift x (c :: h :: w :: more)
     = inr (ct_splice
              [ct_constant 0 [c; h; 1];
               ct_of (if Z.eqb w 1 then x else TensorOpsMixin.ops_slice x 2 0 (w - 1))] 2).
Proof.
  unfold nn.down_shift, nn.right_shift, TensorOpsMixin.__getitem__. simpl.
  unfold TensorOpsMixin.slice_branch; simpl.
  split.
  - destruct (Z.eqb_spec h 1) as [-> | Hh]; [done |].
    destruct (Z.eqb_spec (h - 1) 0); [lia |]. simpl.
    by destruct (Z.eqb_spec (h - 1) 0); [lia |].
  - destruct (Z.eqb_spec w 1) as [-> | Hw]; [done |].
    destruct (Z.eqb_spec (w - 1) 0); [lia |]. simpl.
    by destruct (Z.eqb_spec (w - 1) 0); [lia |].
Qed.

(** X22.  On an input with fewer than three axes both shifts raise
    [IndexError]. *)
Theorem shifts_need_three_axes (x : TensorOpsMixin.node) (xs : list Z) :
  (length xs < 3)%nat ->
  nn.down_shift x xs = inl IndexError /\ nn.right_shift x xs = inl IndexError.
Proof.
  intros Hlen. destruct xs as [| a [| b [| c xs]]]; cbn in Hlen; try lia;
    split; reflexivity.
Qed.

Lemma shifts_need_three_axes_witness :
  nn.down_shift (TensorOpsMixin.Var "x") [3; 32] = inl IndexError
  /\ nn.right_shift (TensorOpsMixin.Var "x") [3; 32] = inl IndexError.
Proof.
  exact (shifts_need_three_axes (TensorOpsMixin.Var "x") [3; 32] ltac:(cbn; lia)).
Defined.
